(** * Guarded analysis pipeline and circuit breaker

    A shallow embedding of [AgentService.analyze] (agent.service.ts) and of
    [CircuitBreakerProvider] (resilience/circuit-breaker.provider.ts), with
    the properties the specification states about them.

    Asynchronous code is read sequentially: an [await] is the point where
    the awaited call's outcome becomes available.  A call either returns a
    value or throws (a rejected promise is a throw at its [await]). *)

From Stdlib Require Import String Ascii List ZArith Bool Lia DecimalString QArith.
Import ListNotations.
Close Scope Q_scope.
Open Scope string_scope.

(** ** JavaScript values shared by both components *)

(** Values that can be thrown.  [PlainError] is [new Error(message)];
    [HttpException] stands for the framework's status-carrying errors, the
    only ones the HTTP layer reports with a status of their own. *)
Inductive Thrown : Type :=
| PlainError (message : string)
| TypeError (message : string)
| HttpException (status : nat) (message : string).

(** [new Error(message)], where an undefined message gives the empty one. *)
Definition new_Error (message : option string) : Thrown :=
  PlainError (match message with Some m => m | None => "" end).

Inductive outcome (A : Type) : Type :=
| Ret (a : A)
| Threw (e : Thrown).
Arguments Ret {A} a.
Arguments Threw {A} e.

(** Modelled from the spec: the declaration of [LLMAnalysisResult]
    (agent/interfaces) is not among the sources; section 3 and 6 of the
    specification give [confidence] the three levels and make [reasoning]
    optional, which is how circuit-breaker.provider.ts and its unit test
    build values of the type. *)
Inductive Confidence : Type := high | medium | low.

Record LLMAnalysisResult : Type := mkLLMAnalysisResult {
  summary : string;
  confidence : Confidence;
  reasoning : option string
}.

(** [haystack.includes(needle)] *)
Fixpoint includes (haystack needle : string) : bool :=
  prefix needle haystack ||
  match haystack with
  | EmptyString => false
  | String _ rest => includes rest needle
  end.

(** The character U+000A inside template literals. *)
Definition nl : string := String (ascii_of_nat 10) EmptyString.

(** [`${n}`] for a non-negative integer such as [array.length]. *)
Definition show_nat (n : nat) : string := NilZero.string_of_uint (Nat.to_uint n).

(** [x || d] on an optional number: [undefined] and [0] are falsy. *)
Definition num_or (x : option Z) (d : Z) : Z :=
  match x with
  | Some v => if Z.eqb v 0 then d else v
  | None => d
  end.

(** [x || d] on an optional string: [undefined] and [''] are falsy. *)
Definition str_or (x : option string) (d : string) : string :=
  match x with
  | Some v => if String.eqb v "" then d else v
  | None => d
  end.

Module Agent.

(** ** Data model of agent.service.ts *)

Record AnalyzeRequest : Type := mkAnalyzeRequest {
  question : string;
  locationId : option string;
  limit : option Z
}.

(** Modelled from the spec: the declaration of [AuthenticatedUser]
    (shared/auth) is not among the sources; section 6 lists the identity as
    [{id, role, tenantId, tenantType}] and the service reads [userId]. *)
Record AuthenticatedUser : Type := mkAuthenticatedUser {
  userId : string;
  role : string;
  tenantId : string;
  tenantType : string
}.

Record DataPoints : Type := mkDataPoints {
  membersAnalyzed : nat;
  locationsAnalyzed : nat
}.

Record Insight : Type := mkInsight {
  i_question : string;
  i_summary : string;
  i_confidence : Confidence;
  i_reasoning : option string;
  dataPoints : DataPoints;
  generatedAt : string;
  provider : string
}.

(** Modelled from the spec: the result types of the guardrails and of the
    grounding service (agent/guardrails) are not among the sources.  The
    fields are the ones [analyze] reads; [sanitizedQuestion], [error] and
    [response] are optional, as the non-null assertions in [analyze] show. *)
Record PreProcessResult : Type := mkPreProcessResult {
  allowed : bool;
  sanitizedQuestion : option string;
  error : option string
}.

Record PostProcessResult : Type := mkPostProcessResult {
  valid : bool;
  response : option LLMAnalysisResult
}.

Record GroundingResult : Type := mkGroundingResult {
  grounded : bool;
  score : Q;
  reason : option string
}.

Record SearchQuery : Type := mkSearchQuery { q_limit : Z }.

(** ** Observable events

    The metric and log sinks of the file, and the one call the properties
    speak about: the invocation of the model provider, recorded with the
    arguments it is given. *)
Inductive Event : Type :=
| EvTimerStart
| EvTimerStop
| EvGuardrailsCounter (type action : string)
| EvGroundingCounter (result : string)
| EvAnalysisCounter (provider status : string)
| EvLogGroundingFailed (score : Q) (reason : option string)
| EvLogCompleted (question : option string) (members locations : nat)
    (provider : string) (confidence : Confidence)
| EvLogFailed (error : Thrown) (question : option string)
| EvLlmAnalyze (question : option string) (context : string).

(** ** Effects: collaborator state, exceptions, emitted events *)

Section Effects.

Context {W : Type}.

(** A computation runs on the collaborators' state [W], returns or throws,
    and emits events in order. *)
Definition M (A : Type) : Type := W -> outcome A * W * list Event.

Definition ret {A} (a : A) : M A := fun w => (Ret a, w, []).

Definition throw {A} (e : Thrown) : M A := fun w => (Threw e, w, []).

Definition bind {A B} (m : M A) (f : A -> M B) : M B :=
  fun w =>
    match m w with
    | (Ret a, w1, t1) =>
        match f a w1 with
        | (o, w2, t2) => (o, w2, (t1 ++ t2)%list)
        end
    | (Threw e, w1, t1) => (Threw e, w1, t1)
    end.

Definition emit (e : Event) : M unit := fun w => (Ret tt, w, [e]).

(** A call of a collaborator that may throw. *)
Definition call {A} (c : W -> outcome A * W) : M A :=
  fun w => match c w with (o, w1) => (o, w1, []) end.

(** A call of a collaborator that always returns. *)
Definition call_total {A} (c : W -> A * W) : M A :=
  fun w => match c w with (a, w1) => (Ret a, w1, []) end.

(** A pure expression that may throw. *)
Definition eval {A} (o : outcome A) : M A := fun w => (o, w, []).

(** [try { body } catch (error) { handler(error) } finally { fin }]: an
    exception of [fin] replaces the result. *)
Definition try_catch_finally {A} (body : M A) (handler : Thrown -> M A)
  (fin : M unit) : M A :=
  fun w =>
    match body w with
    | (o1, w1, t1) =>
        match (match o1 with
               | Ret a => (Ret a, w1, [])
               | Threw e => handler e w1
               end) with
        | (o2, w2, t2) =>
            match fin w2 with
            | (Ret _, w3, t3) => (o2, w3, (t1 ++ t2 ++ t3)%list)
            | (Threw e, w3, t3) => (Threw e, w3, (t1 ++ t2 ++ t3)%list)
            end
        end
    end.

(** [await Promise.all([a, b])] where both calls have been started, [a]
    first; their effects on the collaborators' state are taken in that
    order.  When both reject, the rejection passed on is the one that
    settles first, which [a_first] tells. *)
Definition promise_all2 {A B} (a : W -> outcome A * W) (b : W -> outcome B * W)
  (a_first : W -> bool) : M (A * B) :=
  fun w =>
    match a w with
    | (oa, w1) =>
        match b w1 with
        | (ob, w2) =>
            (match oa, ob with
             | Ret x, Ret y => Ret (x, y)
             | Threw e, Ret _ => Threw e
             | Ret _, Threw e => Threw e
             | Threw ea, Threw eb => Threw (if a_first w2 then ea else eb)
             end, w2, [])
        end
    end.

End Effects.

Arguments M W A : clear implicits.

Declare Scope agent_scope.
Delimit Scope agent_scope with agent.
Notation "x <- m ;; k" := (bind m (fun x => k))
  (at level 61, m at next level, right associativity) : agent_scope.
Notation "m ;; k" := (bind m (fun _ => k))
  (at level 61, right associativity) : agent_scope.
Open Scope agent_scope.

(** ** Collaborators *)

(** The [LLMProvider] interface. *)
Record LLMProvider (W : Type) : Type := mkLLMProvider {
  getName : string;
  llm_analyze : option string -> string -> option string ->
                W -> outcome LLMAnalysisResult * W
}.
Arguments getName {W} _.
Arguments llm_analyze {W} _ _ _ _ _.

Record SearchService (W Rec : Type) : Type := mkSearchService {
  search : SearchQuery -> AuthenticatedUser -> W -> outcome (list Rec) * W
}.
Arguments search {W Rec} _ _ _ _.

Record RedactionService : Type := mkRedactionService {
  redact : string -> outcome string
}.

(** [preProcess] is called outside the [try] block and [handleError] inside
    the [catch] block; both return a result (section 4.5 of the
    specification), so they are total here. *)
Record GuardrailsService (W : Type) : Type := mkGuardrailsService {
  preProcess : string -> string -> W -> PreProcessResult * W;
  postProcess : LLMAnalysisResult -> string -> W -> outcome PostProcessResult * W;
  handleError : Thrown -> string -> W -> LLMAnalysisResult * W
}.
Arguments preProcess {W} _ _ _ _.
Arguments postProcess {W} _ _ _ _.
Arguments handleError {W} _ _ _ _.

Record GroundingService (W : Type) : Type := mkGroundingService {
  check : string -> string -> W -> outcome GroundingResult * W
}.
Arguments check {W} _ _ _ _.

(** The constructor parameters of [AgentService]. *)
Record AgentService (W Rec : Type) : Type := mkAgentService {
  llmProvider : LLMProvider W;
  membershipSearch : SearchService W Rec;
  locationsSearch : SearchService W Rec;
  redactionService : RedactionService;
  guardrails : GuardrailsService W;
  grounding : GroundingService W
}.
Arguments llmProvider {W Rec} _.
Arguments membershipSearch {W Rec} _.
Arguments locationsSearch {W Rec} _.
Arguments redactionService {W Rec} _.
Arguments guardrails {W Rec} _.
Arguments grounding {W Rec} _.

(** What the JavaScript runtime provides: the records are of type
    [unknown], read through the two casts of the summaries; [JSON.stringify]
    of a [Record<string, number>] is given its entries in insertion order,
    and of an array of records it may throw; [new Date().toISOString()]
    reads the clock; [members_first] tells which of two rejected searches
    settled first. *)
Record Runtime (W Rec : Type) : Type := mkRuntime {
  status_notes : Rec -> option string;
  region : Rec -> option string;
  JSON_stringify_counts : list (string * nat) -> string;
  JSON_stringify_records : list Rec -> outcome string;
  toISOString_now : W -> string;
  members_first : W -> bool
}.
Arguments status_notes {W Rec} _ _.
Arguments region {W Rec} _ _.
Arguments JSON_stringify_counts {W Rec} _ _.
Arguments JSON_stringify_records {W Rec} _ _.
Arguments toISOString_now {W Rec} _ _.
Arguments members_first {W Rec} _ _.

(** ** The methods of [AgentService] *)

(** [s.split(' ')[0]]: the characters before the first space. *)
Fixpoint split_space_0 (s : string) : string :=
  match s with
  | EmptyString => EmptyString
  | String c rest =>
      if Ascii.eqb c " "%char then EmptyString else String c (split_space_0 rest)
  end.

(** [counts[key] = (counts[key] || 0) + 1] on a [Record<string, number>]
    that starts empty, kept as its entries in insertion order.  Keys that
    name a property of [Object.prototype] are outside this model. *)
Fixpoint increment (key : string) (counts : list (string * nat)) : list (string * nat) :=
  match counts with
  | [] => [(key, 1)]
  | (k, n) :: rest =>
      if String.eqb k key then (k, n + 1) :: rest else (k, n) :: increment key rest
  end.

Section Service.

Context {W Rec : Type} (rt : Runtime W Rec) (this : AgentService W Rec).

Definition summarizeMembers (members : list Rec) : outcome string :=
  match members with
  | [] => Ret "No membership records found."
  | _ =>
      let byStatus :=
        fold_left
          (fun counts m =>
             let status :=
               str_or (option_map split_space_0 (status_notes rt m)) "unknown" in
             increment status counts)
          members [] in
      match JSON_stringify_records rt (firstn 5 members) with
      | Ret sample =>
          Ret ("Status distribution: " ++ JSON_stringify_counts rt byStatus ++ nl ++
               "Sample records: " ++ sample)
      | Threw e => Threw e
      end
  end.

Definition summarizeLocations (locations : list Rec) : outcome string :=
  match locations with
  | [] => Ret "No location records found."
  | _ =>
      let byRegion :=
        fold_left
          (fun counts l => increment (str_or (region rt l) "unknown") counts)
          locations [] in
      match JSON_stringify_records rt (firstn 3 locations) with
      | Ret sample =>
          Ret ("Region distribution: " ++ JSON_stringify_counts rt byRegion ++ nl ++
               "Sample records: " ++ sample)
      | Threw e => Threw e
      end
  end.

Definition buildContext (members locations : list Rec) (request : AnalyzeRequest)
  : outcome string :=
  match summarizeMembers members with
  | Threw e => Threw e
  | Ret memberSummary =>
      match summarizeLocations locations with
      | Threw e => Threw e
      | Ret locationSummary =>
          Ret (nl ++
               "MEMBERSHIP DATA (" ++ show_nat (length members) ++ " records):" ++ nl ++
               memberSummary ++ nl ++
               nl ++
               "LOCATION DATA (" ++ show_nat (length locations) ++ " records):" ++ nl ++
               locationSummary ++ nl ++
               nl ++
               match locationId request with
               | Some id =>
                   if String.eqb id "" then "" else "FOCUS: Location ID " ++ id
               | None => ""
               end ++ nl)
      end
  end.

(** The [try] block of [analyze]. *)
Definition analyze_try (request : AnalyzeRequest) (user : AuthenticatedUser)
  (providerName : string) (sanitized : option string) : M W Insight :=
  ml <- promise_all2
          (search (membershipSearch this) (mkSearchQuery (num_or (limit request) 100)) user)
          (search (locationsSearch this) (mkSearchQuery (num_or (limit request) 50)) user)
          (members_first rt) ;;
  let members := fst ml in
  let locations := snd ml in
  context <- eval (buildContext members locations request) ;;
  redactedContext <- eval (redact (redactionService this) context) ;;
  emit (EvLlmAnalyze sanitized redactedContext) ;;
  llmResult <- call (llm_analyze (llmProvider this) sanitized redactedContext None) ;;
  groundingResult <- call (check (grounding this) redactedContext (summary llmResult)) ;;
  (if negb (grounded groundingResult)
   then emit (EvGroundingCounter "ungrounded") ;;
        emit (EvLogGroundingFailed (score groundingResult) (reason groundingResult))
   else emit (EvGroundingCounter "grounded")) ;;
  postResult <- call (postProcess (guardrails this) llmResult (userId user)) ;;
  (if negb (valid postResult)
   then emit (EvGuardrailsCounter "output" "fallback")
   else emit (EvGuardrailsCounter "output" "passed")) ;;
  emit (EvAnalysisCounter providerName "success") ;;
  match response postResult with
  | None => throw (TypeError "Cannot read properties of undefined (reading 'confidence')")
  | Some result =>
      emit (EvLogCompleted sanitized (length members) (length locations)
              providerName (confidence result)) ;;
      now <- call_total (fun w => (toISOString_now rt w, w)) ;;
      ret {| i_question := question request;
             i_summary := summary result;
             i_confidence := confidence result;
             i_reasoning := reasoning result;
             dataPoints := {| membersAnalyzed := length members;
                              locationsAnalyzed := length locations |};
             generatedAt := now;
             provider := providerName |}
  end.

(** The [catch] block of [analyze]. *)
Definition analyze_catch (request : AnalyzeRequest) (user : AuthenticatedUser)
  (providerName : string) (sanitized : option string) (error : Thrown) : M W Insight :=
  emit (EvAnalysisCounter providerName "error") ;;
  emit (EvLogFailed error sanitized) ;;
  fallback <- call_total (handleError (guardrails this) error (userId user)) ;;
  now <- call_total (fun w => (toISOString_now rt w, w)) ;;
  ret {| i_question := question request;
         i_summary := summary fallback;
         i_confidence := confidence fallback;
         i_reasoning := reasoning fallback;
         dataPoints := {| membersAnalyzed := 0; locationsAnalyzed := 0 |};
         generatedAt := now;
         provider := providerName |}.

Definition analyze (request : AnalyzeRequest) (user : AuthenticatedUser) : M W Insight :=
  emit EvTimerStart ;;
  let providerName := getName (llmProvider this) in
  let userId := userId user in
  preResult <- call_total (preProcess (guardrails this) (question request) userId) ;;
  if negb (allowed preResult) then
    emit (EvGuardrailsCounter "input" "blocked") ;;
    throw (new_Error (error preResult))
  else
    emit (EvGuardrailsCounter "input" "allowed") ;;
    let sanitizedQuestion := sanitizedQuestion preResult in
    try_catch_finally
      (analyze_try request user providerName sanitizedQuestion)
      (analyze_catch request user providerName sanitizedQuestion)
      (emit EvTimerStop).

End Service.

(** The same service with another grounding collaborator. *)
Definition with_grounding {W Rec} (this : AgentService W Rec) (g : GroundingService W)
  : AgentService W Rec :=
  {| llmProvider := llmProvider this;
     membershipSearch := membershipSearch this;
     locationsSearch := locationsSearch this;
     redactionService := redactionService this;
     guardrails := guardrails this;
     grounding := g |}.

(** Modelled from the spec: the controller and the framework's exception
    layer are not among the sources.  Section 6 and 7 of the specification
    and test/agent/agent.e2e-spec.ts give the status the caller sees: 201
    for a returned Insight, the error's own status for a status-carrying
    error, 500 for any other thrown value. *)
Definition http_status (o : outcome Insight) : nat :=
  match o with
  | Ret _ => 201
  | Threw (HttpException status _) => status
  | Threw _ => 500
  end.

(** Projections of a run. *)
Definition result_of {W A} (r : outcome A * W * list Event) : outcome A := fst (fst r).
Definition events_of {W A} (r : outcome A * W * list Event) : list Event := snd r.

(** ** A concrete deployment, used to run the model

    The collaborators' state is a clock tick counter; a record carries its
    status notes and its region. *)
Module Demo.

Definition Rec : Type := (option string * option string)%type.

Definition runtime : Runtime nat Rec :=
  {| status_notes := fun r => fst r;
     region := fun r => snd r;
     JSON_stringify_counts := fun counts => "{" ++ show_nat (length counts) ++ " keys}";
     JSON_stringify_records := fun rs => Ret ("[" ++ show_nat (length rs) ++ " records]");
     toISOString_now := fun w => "2025-01-01T00:00:" ++ show_nat w ++ "Z";
     members_first := fun _ => true |}.

Definition answer : LLMAnalysisResult :=
  {| summary := "Dropout is concentrated in two regions.";
     confidence := high;
     reasoning := Some "Based on the status distribution." |}.

Definition fallback : LLMAnalysisResult :=
  {| summary := "Unable to complete the analysis.";
     confidence := low;
     reasoning := None |}.

Definition healthy : LLMProvider nat :=
  {| getName := "gemini";
     llm_analyze := fun _ _ _ w => (Ret answer, S w) |}.

Definition failing : LLMProvider nat :=
  {| getName := "gemini";
     llm_analyze := fun _ _ _ w => (Threw (PlainError "503 from provider"), S w) |}.

Fixpoint drop_leading_spaces (s : string) : string :=
  match s with
  | String c rest => if Ascii.eqb c " "%char then drop_leading_spaces rest else s
  | EmptyString => EmptyString
  end.

Definition guard : GuardrailsService nat :=
  {| preProcess := fun q _ w =>
       let s := drop_leading_spaces q in
       if Nat.ltb (String.length s) 3
       then ({| allowed := false; sanitizedQuestion := None;
                error := Some "Question is too short" |}, w)
       else ({| allowed := true; sanitizedQuestion := Some s; error := None |}, S w);
     postProcess := fun r _ w => (Ret {| valid := true; response := Some r |}, w);
     handleError := fun _ _ w => (fallback, w) |}.

Definition members : list Rec :=
  [(Some "active since 2021", None); (Some "dropped out", None); (None, None)].

Definition locations : list Rec :=
  [(None, Some "Southeast"); (None, Some "")].

Definition verdict (g : bool) : GroundingService nat :=
  {| check := fun _ _ w =>
       (Ret {| grounded := g; score := if g then (9 # 10)%Q else (1 # 10)%Q;
               reason := if g then None else Some "unsupported claim" |}, w) |}.

Definition service (p : LLMProvider nat) (g : bool) : AgentService nat Rec :=
  {| llmProvider := p;
     membershipSearch := {| search := fun _ _ w => (Ret members, S w) |};
     locationsSearch := {| search := fun _ _ w => (Ret locations, S w) |};
     redactionService := {| redact := fun s => Ret ("[redacted]" ++ s) |};
     guardrails := guard;
     grounding := verdict g |}.

Definition user : AuthenticatedUser :=
  {| userId := "test-auditor-1"; role := "auditor";
     tenantId := "rcm-internal"; tenantType := "internal" |}.

Definition ask (q : string) : AnalyzeRequest :=
  {| question := q; locationId := Some "GYM_101"; limit := None |}.

Definition accepted : PreProcessResult :=
  {| allowed := true; sanitizedQuestion := Some "What drives dropout?"; error := None |}.

Definition context : string :=
  Eval vm_compute in
    match buildContext runtime members locations (ask "  What drives dropout?") with
    | Ret c => c
    | Threw _ => ""
    end.

Definition redacted : string := Eval vm_compute in "[redacted]" ++ context.

End Demo.

(** ** Names for parts of the methods above *)

(** The status a member is counted under in [summarizeMembers]:
    [member.status_notes?.split(' ')[0] || 'unknown']. *)
Definition member_status {W Rec} (rt : Runtime W Rec) (m : Rec) : string :=
  str_or (option_map split_space_0 (status_notes rt m)) "unknown".

(** [byStatus] once the [forEach] of [summarizeMembers] has run. *)
Definition byStatus {W Rec} (rt : Runtime W Rec) (members : list Rec)
  : list (string * nat) :=
  fold_left (fun counts m => increment (member_status rt m) counts) members [].

(** The region a location is counted under in [summarizeLocations]:
    [loc.region || 'unknown']. *)
Definition location_region {W Rec} (rt : Runtime W Rec) (l : Rec) : string :=
  str_or (region rt l) "unknown".

(** [byRegion] once the [forEach] of [summarizeLocations] has run. *)
Definition byRegion {W Rec} (rt : Runtime W Rec) (locations : list Rec)
  : list (string * nat) :=
  fold_left (fun counts l => increment (location_region rt l) counts) locations [].

(** The names an object literal inherits from [Object.prototype]; read on
    an empty [Record<string, number>] they are not [undefined], so the
    counting of [summarizeMembers] and [summarizeLocations] is as
    [increment] has it only for keys other than these. *)
Definition inherited_keys : list string :=
  ["constructor"; "__defineGetter__"; "__defineSetter__"; "hasOwnProperty";
   "__lookupGetter__"; "__lookupSetter__"; "isPrototypeOf"; "propertyIsEnumerable";
   "toString"; "valueOf"; "__proto__"; "toLocaleString"].

(** [counts[key] || 0] *)
Fixpoint count_of (key : string) (counts : list (string * nat)) : nat :=
  match counts with
  | [] => 0
  | (k, n) :: rest => if String.eqb k key then n else count_of key rest
  end.

(** The sum of the values of a [Record<string, number>]. *)
Definition total (counts : list (string * nat)) : nat := list_sum (map snd counts).

(** The invocations of the model provider among the events of a run. *)
Definition llm_calls (events : list Event) : list Event :=
  filter (fun e => match e with EvLlmAnalyze _ _ => true | _ => false end) events.

(** The same runtime with another [JSON.stringify] for arrays of records. *)
Definition with_stringify {W Rec} (rt : Runtime W Rec)
  (stringify : list Rec -> outcome string) : Runtime W Rec :=
  {| status_notes := status_notes rt;
     region := region rt;
     JSON_stringify_counts := JSON_stringify_counts rt;
     JSON_stringify_records := stringify;
     toISOString_now := toISOString_now rt;
     members_first := members_first rt |}.

(** The same service with another [postProcess]. *)
Definition with_postProcess {W Rec} (this : AgentService W Rec)
  (post : LLMAnalysisResult -> string -> W -> outcome PostProcessResult * W)
  : AgentService W Rec :=
  {| llmProvider := llmProvider this;
     membershipSearch := membershipSearch this;
     locationsSearch := locationsSearch this;
     redactionService := redactionService this;
     guardrails := {| preProcess := preProcess (guardrails this);
                      postProcess := post;
                      handleError := handleError (guardrails this) |};
     grounding := grounding this |}.

(** ** Watching the provider

    To speak of the calls the provider really receives, the collaborators'
    state is extended with a journal that the provider itself writes: every
    application of its [analyze] appends the arguments it was given.  No
    other collaborator touches the journal. *)
Record LlmCall : Type := mkLlmCall {
  call_question : option string;
  call_context : string;
  call_systemPrompt : option string
}.

Definition Spied (W : Type) : Type := (W * list LlmCall)%type.

Definition spy {W} (p : LLMProvider W) : LLMProvider (Spied W) :=
  {| getName := getName p;
     llm_analyze := fun q c s wl =>
       match llm_analyze p q c s (fst wl) with
       | (o, w1) => (o, (w1, (snd wl ++ [mkLlmCall q c s])%list))
       end |}.

(** A collaborator that runs beside the journal. *)
Definition beside {W A} (c : W -> A * W) : Spied W -> A * Spied W :=
  fun wl => match c (fst wl) with (a, w1) => (a, (w1, snd wl)) end.

Definition spied {W Rec} (this : AgentService W Rec) : AgentService (Spied W) Rec :=
  {| llmProvider := spy (llmProvider this);
     membershipSearch :=
       {| search := fun q u => beside (search (membershipSearch this) q u) |};
     locationsSearch :=
       {| search := fun q u => beside (search (locationsSearch this) q u) |};
     redactionService := redactionService this;
     guardrails :=
       {| preProcess := fun q u => beside (preProcess (guardrails this) q u);
          postProcess := fun r u => beside (postProcess (guardrails this) r u);
          handleError := fun e u => beside (handleError (guardrails this) e u) |};
     grounding := {| check := fun c s => beside (check (grounding this) c s) |} |}.

Definition spied_runtime {W Rec} (rt : Runtime W Rec) : Runtime (Spied W) Rec :=
  {| status_notes := status_notes rt;
     region := region rt;
     JSON_stringify_counts := JSON_stringify_counts rt;
     JSON_stringify_records := JSON_stringify_records rt;
     toISOString_now := fun wl => toISOString_now rt (fst wl);
     members_first := fun wl => members_first rt (fst wl) |}.

(** The journal at the end of a run. *)
Definition journal {W A} (r : outcome A * Spied W * list Event) : list LlmCall :=
  snd (snd (fst r)).

(** The event [analyze] records for a call. *)
Definition call_event (c : LlmCall) : Event :=
  EvLlmAnalyze (call_question c) (call_context c).

End Agent.

Module Breaker.

Local Open Scope Z_scope.

(** ** Options of circuit-breaker.provider.ts *)

(** A value of type [number | undefined]. *)
Inductive JsNumber : Type :=
| undefined
| number (z : Z).

(** An optional field is [None] when the object has no such key; a key
    that is there may still hold [undefined]. *)
Record CircuitBreakerOptions : Type := mkCircuitBreakerOptions {
  timeout : option JsNumber;
  errorThresholdPercentage : option JsNumber;
  resetTimeout : option JsNumber;
  volumeThreshold : option JsNumber
}.

(** Modelled from the spec: the declaration of the library's option type
    ([CircuitBreaker.Options] of opossum) is not among the sources; these are
    the four settings the constructor sets and section 4.8 lists. *)
Record Options : Type := mkOptions {
  opt_timeout : JsNumber;
  opt_errorThresholdPercentage : JsNumber;
  opt_resetTimeout : JsNumber;
  opt_volumeThreshold : JsNumber
}.

Definition defaults : Options :=
  {| opt_timeout := number 30000;
     opt_errorThresholdPercentage := number 50;
     opt_resetTimeout := number 30000;
     opt_volumeThreshold := number 3 |}.

(** One key of [{ ...base, ...over }]: the value of [over] when it has the
    key, that of [base] otherwise. *)
Definition spread_key (base : JsNumber) (over : option JsNumber) : JsNumber :=
  match over with
  | Some v => v
  | None => base
  end.

(** [over ?? base], where [over] is an optional field read through [?.]. *)
Definition nullish (over : option JsNumber) (base : JsNumber) : JsNumber :=
  match over with
  | Some (number z) => number z
  | _ => base
  end.

(** [{ ...base, ...over }], where spreading [undefined] adds nothing. *)
Definition spread (base : Options) (over : option CircuitBreakerOptions) : Options :=
  match over with
  | None => base
  | Some o =>
      {| opt_timeout := spread_key (opt_timeout base) (timeout o);
         opt_errorThresholdPercentage :=
           spread_key (opt_errorThresholdPercentage base) (errorThresholdPercentage o);
         opt_resetTimeout := spread_key (opt_resetTimeout base) (resetTimeout o);
         opt_volumeThreshold := spread_key (opt_volumeThreshold base) (volumeThreshold o) |}
  end.

(** The options the factory of agent.module.ts passes, given the two
    configuration values it reads. *)
Definition factory_options (LLM_TIMEOUT_MS LLM_CIRCUIT_RESET_MS : option Z)
  : CircuitBreakerOptions :=
  {| timeout := Some (number (num_or LLM_TIMEOUT_MS 30000));
     errorThresholdPercentage := None;
     resetTimeout := Some (number (num_or LLM_CIRCUIT_RESET_MS 30000));
     volumeThreshold := None |}.

(** ** Observable events: the metric and log sinks of the file, and the
    invocation of the wrapped provider *)

Definition Args : Type := (option string * string * option string)%type.

Inductive Event : Type :=
| EvProviderAnalyze (args : Args)
| EvCircuitState (provider : string) (value : Z)
| EvCircuitEvent (provider event : string)
| EvLogger (level msg provider : string)
| EvLoggerInit (provider : string) (timeout resetTimeout : JsNumber).

(** The wrapped provider: its call settles, returning or throwing, after
    [latency] milliseconds. *)
Record Completion : Type := mkCompletion {
  latency : N;
  settled : outcome LLMAnalysisResult
}.

Record LLMProvider (W : Type) : Type := mkLLMProvider {
  getName : string;
  provider_analyze : Args -> W -> Completion * W
}.
Arguments getName {W} _.
Arguments provider_analyze {W} _ _ _.

(** ** The handlers [setupEventHandlers] registers *)

Definition on_open (name : string) : list Event :=
  [EvCircuitState name 1; EvCircuitEvent name "open";
   EvLogger "warn" "Circuit OPENED - LLM provider failing" name].

Definition on_close (name : string) : list Event :=
  [EvCircuitState name 0; EvCircuitEvent name "close";
   EvLogger "log" "Circuit CLOSED - LLM provider recovered" name].

Definition on_halfOpen (name : string) : list Event :=
  [EvCircuitState name 2; EvCircuitEvent name "halfOpen";
   EvLogger "log" "Circuit HALF-OPEN - testing recovery" name].

Definition on_timeout (name : string) : list Event :=
  [EvCircuitEvent name "timeout"; EvLogger "warn" "LLM request timed out" name].

(** The function given to [breaker.fallback]: what it records and what it
    returns. *)
Definition fallback_events (name : string) : list Event :=
  [EvCircuitEvent name "fallback";
   EvLogger "warn" "Circuit breaker fallback triggered" name].

Definition fallback_result : LLMAnalysisResult :=
  {| summary := "Analysis temporarily unavailable. The AI service is experiencing issues and will recover shortly.";
     confidence := low;
     reasoning := Some "Circuit breaker active - LLM provider unavailable" |}.

(** ** The breaker *)

(** Modelled from the spec: the circuit breaker class of the opossum
    library is not among the sources; the file above only configures it,
    calls [fire] and reads [opened] and [halfOpen].  This is the state
    machine of section 4.8 of the specification: the state, the calls
    counted in the rolling window (newest first, [true] for a failure), a
    clock in milliseconds and the time the circuit was last opened.  A
    setting whose value is [undefined] is read as its default of
    section 4.8. *)
Inductive State : Type := CLOSED | OPEN | HALF_OPEN.

Definition setting (v : JsNumber) (default : Z) : Z :=
  match v with
  | number z => z
  | undefined => default
  end.

Definition timeout_ms (o : Options) : Z := setting (opt_timeout o) 30000.
Definition error_threshold (o : Options) : Z := setting (opt_errorThresholdPercentage o) 50.
Definition reset_ms (o : Options) : Z := setting (opt_resetTimeout o) 30000.
Definition volume_threshold (o : Options) : Z := setting (opt_volumeThreshold o) 3.

Record CircuitBreaker : Type := mkCircuitBreaker {
  options : Options;
  state : State;
  window : list bool;
  now : Z;
  openedAt : Z
}.

Definition opened (b : CircuitBreaker) : bool :=
  match state b with OPEN => true | _ => false end.

Definition halfOpen (b : CircuitBreaker) : bool :=
  match state b with HALF_OPEN => true | _ => false end.

Definition new_CircuitBreaker (opts : Options) : CircuitBreaker :=
  {| options := opts; state := CLOSED; window := []; now := 0; openedAt := 0 |}.

(** How a call of the wrapped provider counts: a call that exceeds
    [timeout] is abandoned and is a failure. *)
Inductive CallResult : Type :=
| Succeeded (r : LLMAnalysisResult)
| Failed (e : Thrown)
| TimedOut.

Definition classify (opts : Options) (c : Completion) : CallResult :=
  if Z.ltb (timeout_ms opts) (Z.of_N (latency c)) then TimedOut
  else match settled c with
       | Ret r => Succeeded r
       | Threw e => Failed e
       end.

Definition is_failure (r : CallResult) : bool :=
  match r with Succeeded _ => false | _ => true end.

Definition calls (w : list bool) : Z := Z.of_nat (length w).

Definition failures (w : list bool) : Z := Z.of_nat (length (filter (fun f => f) w)).

(** The window holds at least [volumeThreshold] calls and its failure
    percentage, [100 * failures / calls], meets or exceeds
    [errorThresholdPercentage]. *)
Definition trips (opts : Options) (w : list bool) : bool :=
  Z.leb (volume_threshold opts) (calls w) &&
  Z.leb (error_threshold opts * calls w) (100 * failures w).

(** What a counted call gives its caller; section 7 names the two
    failures. *)
Definition call_outcome (r : CallResult) : outcome LLMAnalysisResult :=
  match r with
  | Succeeded a => Ret a
  | Failed e => Threw e
  | TimedOut => Threw (PlainError "ProviderTimeout")
  end.

(** The time a counted call takes: it is bounded by [timeout]. *)
Definition time_taken (opts : Options) (c : Completion) : Z :=
  Z.min (Z.of_N (latency c)) (Z.max 0 (timeout_ms opts)).

Section Fire.

Context {W : Type} (name : string) (action : Args -> W -> Completion * W)
  (fallback : list Event * LLMAnalysisResult).

(** [breaker.fire(...args)] *)
Definition fire (b : CircuitBreaker) (args : Args) (w : W)
  : outcome LLMAnalysisResult * CircuitBreaker * W * list Event :=
  match state b with
  | OPEN => (Ret (snd fallback), b, w, fst fallback)
  | CLOSED =>
      match action args w with
      | (c, w1) =>
          let r := classify (options b) c in
          let win := is_failure r :: window b in
          let t := now b + time_taken (options b) c in
          let timed := match r with TimedOut => on_timeout name | _ => [] end in
          if trips (options b) win
          then (call_outcome r,
                {| options := options b; state := OPEN; window := win;
                   now := t; openedAt := t |},
                w1, (EvProviderAnalyze args :: timed ++ on_open name)%list)
          else (call_outcome r,
                {| options := options b; state := CLOSED; window := win;
                   now := t; openedAt := openedAt b |},
                w1, (EvProviderAnalyze args :: timed)%list)
      end
  | HALF_OPEN =>
      match action args w with
      | (c, w1) =>
          let r := classify (options b) c in
          let win := is_failure r :: window b in
          let t := now b + time_taken (options b) c in
          let timed := match r with TimedOut => on_timeout name | _ => [] end in
          if is_failure r
          then (call_outcome r,
                {| options := options b; state := OPEN; window := win;
                   now := t; openedAt := t |},
                w1, (EvProviderAnalyze args :: timed ++ on_open name)%list)
          else (call_outcome r,
                {| options := options b; state := CLOSED; window := win;
                   now := t; openedAt := openedAt b |},
                w1, (EvProviderAnalyze args :: on_close name)%list)
      end
  end.

End Fire.

(** Time passing with no call: an open circuit becomes half-open once
    [resetTimeout] has elapsed since it opened. *)
Definition elapse (name : string) (ms : N) (b : CircuitBreaker)
  : CircuitBreaker * list Event :=
  let t := now b + Z.of_N ms in
  match state b with
  | OPEN =>
      if Z.leb (reset_ms (options b)) (t - openedAt b)
      then ({| options := options b; state := HALF_OPEN; window := window b;
               now := t; openedAt := openedAt b |}, on_halfOpen name)
      else ({| options := options b; state := OPEN; window := window b;
               now := t; openedAt := openedAt b |}, [])
  | s => ({| options := options b; state := s; window := window b;
             now := t; openedAt := openedAt b |}, [])
  end.

(** The window rolling: its [k] oldest calls leave it. *)
Definition expire (k : nat) (b : CircuitBreaker) : CircuitBreaker :=
  {| options := options b; state := state b;
     window := firstn (length (window b) - k)%nat (window b);
     now := now b; openedAt := openedAt b |}.

(** ** [CircuitBreakerProvider] *)

Record CircuitBreakerProvider (W : Type) : Type := mkCircuitBreakerProvider {
  provider : LLMProvider W;
  breaker : CircuitBreaker;
  providerName : string
}.
Arguments provider {W} _.
Arguments breaker {W} _.
Arguments providerName {W} _.

(** The constructor, with the events of [setupEventHandlers] and of the
    final log line. *)
Definition new_CircuitBreakerProvider {W} (p : LLMProvider W)
  (opts : option CircuitBreakerOptions) : CircuitBreakerProvider W * list Event :=
  ({| provider := p;
      breaker := new_CircuitBreaker (spread defaults opts);
      providerName := getName p |},
   [EvCircuitState (getName p) 0;
    EvLoggerInit (getName p)
      (nullish (match opts with Some o => timeout o | None => None end)
         (opt_timeout defaults))
      (nullish (match opts with Some o => resetTimeout o | None => None end)
         (opt_resetTimeout defaults))]).

Definition with_breaker {W} (this : CircuitBreakerProvider W) (b : CircuitBreaker)
  : CircuitBreakerProvider W :=
  {| provider := provider this; breaker := b; providerName := providerName this |}.

Definition analyze {W} (this : CircuitBreakerProvider W) (args : Args) (w : W)
  : outcome LLMAnalysisResult * CircuitBreakerProvider W * W * list Event :=
  match fire (providerName this) (provider_analyze (provider this))
          (fallback_events (providerName this), fallback_result)
          (breaker this) args w with
  | (o, b, w1, evs) => (o, with_breaker this b, w1, evs)
  end.

Definition isOpen {W} (this : CircuitBreakerProvider W) : bool :=
  opened (breaker this).

Definition getState {W} (this : CircuitBreakerProvider W) : string :=
  if halfOpen (breaker this) then "half-open"
  else if opened (breaker this) then "open"
  else "closed".

(** ** What happens to a provider: calls, time passing, the window rolling *)
Inductive Input : Type :=
| Call (args : Args)
| Elapse (ms : N)
| Expire (k : nat).

Definition step {W} (this : CircuitBreakerProvider W) (i : Input) (w : W)
  : CircuitBreakerProvider W * W * list Event :=
  match i with
  | Call args =>
      match analyze this args w with
      | (_, this1, w1, evs) => (this1, w1, evs)
      end
  | Elapse ms =>
      match elapse (providerName this) ms (breaker this) with
      | (b, evs) => (with_breaker this b, w, evs)
      end
  | Expire k => (with_breaker this (expire k (breaker this)), w, [])
  end.

Fixpoint run {W} (this : CircuitBreakerProvider W) (inputs : list Input) (w : W)
  : CircuitBreakerProvider W * W * list Event :=
  match inputs with
  | [] => (this, w, [])
  | i :: rest =>
      match step this i w with
      | (this1, w1, evs1) =>
          match run this1 rest w1 with
          | (this2, w2, evs2) => (this2, w2, (evs1 ++ evs2)%list)
          end
      end
  end.

(** ** A wrapped provider to run the model on: it fails until its third
    call and answers from then on; its state counts its calls. *)
Module Sample.

Definition successResponse : LLMAnalysisResult :=
  {| summary := "Test analysis result";
     confidence := high;
     reasoning := Some "Based on test data" |}.

Definition mock : LLMProvider nat :=
  {| getName := "mock-provider";
     provider_analyze := fun _ n =>
       ({| latency := 5;
           settled := if Nat.ltb n 3 then Threw (PlainError "Provider error")
                      else Ret successResponse |}, S n) |}.

Definition args : Args := (Some "q", "c", None).

Definition fresh : CircuitBreakerProvider nat :=
  fst (new_CircuitBreakerProvider mock None).

(** After three failed calls. *)
Definition tripped : CircuitBreakerProvider nat :=
  fst (fst (run fresh [Call args; Call args; Call args] 0%nat)).

(** After [resetTimeout] more. *)
Definition probing : CircuitBreakerProvider nat :=
  fst (fst (step tripped (Elapse 30000) 3%nat)).

End Sample.

(** ** The factory of agent.module.ts

    [useFactory(config, gemini, bedrock)], given the three values it reads
    from the configuration. *)
Definition useFactory {W} (LLM_PROVIDER : option string)
  (LLM_TIMEOUT_MS LLM_CIRCUIT_RESET_MS : option Z)
  (gemini bedrock : LLMProvider W) : CircuitBreakerProvider W * list Event :=
  let providerName := str_or LLM_PROVIDER "gemini" in
  let baseProvider := if String.eqb providerName "bedrock" then bedrock else gemini in
  new_CircuitBreakerProvider baseProvider
    (Some (factory_options LLM_TIMEOUT_MS LLM_CIRCUIT_RESET_MS)).

End Breaker.

Module AgentFacts.

Import Agent.

(** ** Properties of [analyze] *)

Section AgentProperties.

Context {W Rec : Type} (rt : Runtime W Rec) (this : AgentService W Rec).

Lemma analyze_rejected (request : AnalyzeRequest) (user : AuthenticatedUser)
  (w w1 : W) (pre : PreProcessResult) :
  preProcess (guardrails this) (question request) (userId user) w = (pre, w1) ->
  allowed pre = false ->
  analyze rt this request user w =
    (Threw (new_Error (error pre)), w1,
     [EvTimerStart; EvGuardrailsCounter "input" "blocked"]).
Proof.
  intros Hpre Hno.
  unfold analyze, bind, emit, call_total, throw.
  rewrite Hpre, Hno. reflexivity.
Qed.

Lemma analyze_allowed (request : AnalyzeRequest) (user : AuthenticatedUser)
  (w w1 : W) (pre : PreProcessResult) :
  preProcess (guardrails this) (question request) (userId user) w = (pre, w1) ->
  allowed pre = true ->
  analyze rt this request user w =
    match try_catch_finally
            (analyze_try rt this request user (getName (llmProvider this))
               (sanitizedQuestion pre))
            (analyze_catch rt this request user (getName (llmProvider this))
               (sanitizedQuestion pre))
            (emit EvTimerStop) w1 with
    | (o, w2, t) =>
        (o, w2, EvTimerStart :: EvGuardrailsCounter "input" "allowed" :: t)
    end.
Proof.
  intros Hpre Hyes.
  unfold analyze, bind, emit, call_total.
  rewrite Hpre, Hyes. simpl.
  destruct (try_catch_finally _ _ _ w1) as [[o w2] t]. reflexivity.
Qed.

Lemma analyze_catch_returns (request : AnalyzeRequest) (user : AuthenticatedUser)
  (name : string) (sanitized : option string) (e : Thrown) (w : W) :
  analyze_catch rt this request user name sanitized e w =
    (Ret {| i_question := question request;
            i_summary := summary (fst (handleError (guardrails this) e (userId user) w));
            i_confidence := confidence (fst (handleError (guardrails this) e (userId user) w));
            i_reasoning := reasoning (fst (handleError (guardrails this) e (userId user) w));
            dataPoints := {| membersAnalyzed := 0; locationsAnalyzed := 0 |};
            generatedAt :=
              toISOString_now rt (snd (handleError (guardrails this) e (userId user) w));
            provider := name |},
     snd (handleError (guardrails this) e (userId user) w),
     [EvAnalysisCounter name "error"; EvLogFailed e sanitized]).
Proof.
  unfold analyze_catch, bind, emit, call_total, ret.
  destruct (handleError (guardrails this) e (userId user) w) as [fb w1].
  reflexivity.
Qed.

(** C5: when preProcess rejects the question, analyze throws a plain Error
    whose message is the rejection reason; it returns no Insight, the
    thrown value carries no status of its own, and the caller sees the
    status of a server failure. *)
Theorem rejection_is_generic_error (request : AnalyzeRequest)
  (user : AuthenticatedUser) (w : W) :
  allowed (fst (preProcess (guardrails this) (question request) (userId user) w))
    = false ->
  result_of (analyze rt this request user w) =
    Threw (PlainError
             (match error (fst (preProcess (guardrails this) (question request)
                                  (userId user) w)) with
              | Some reason => reason
              | None => ""
              end)) /\
  (forall i, result_of (analyze rt this request user w) <> Ret i) /\
  (forall status message,
     result_of (analyze rt this request user w) <> Threw (HttpException status message)) /\
  http_status (result_of (analyze rt this request user w)) = 500.
Proof.
  destruct (preProcess (guardrails this) (question request) (userId user) w)
    as [pre w1] eqn:Hpre.
  simpl. intros Hal.
  rewrite (analyze_rejected request user w w1 pre Hpre Hal).
  unfold result_of, new_Error. simpl.
  repeat split; intros; discriminate.
Qed.

(** The result of the guarded part: that of the [try] block when it
    returns, that of the [catch] block otherwise. *)
Lemma guarded_result {A : Type} (body : M W A) (handler : Thrown -> M W A)
  (ev : Event) (w : W) :
  fst (try_catch_finally body handler (emit ev) w) =
    match fst (body w) with
    | (Ret a, w1) => (Ret a, w1)
    | (Threw e, w1) => fst (handler e w1)
    end.
Proof.
  unfold try_catch_finally, emit.
  destruct (body w) as [[[a|e] w1] t1]; simpl; [reflexivity |].
  destruct (handler e w1) as [[o2 w2] t2]. reflexivity.
Qed.

(** The successful path of the [try] block, collaborator by collaborator. *)
Lemma analyze_try_success (request : AnalyzeRequest) (user : AuthenticatedUser)
  (name : string) (sanitized : option string)
  (w w1 w2 w3 w4 w5 : W) (members locations : list Rec) (context redacted : string)
  (llmResult result : LLMAnalysisResult) (g : GroundingResult) (post : PostProcessResult) :
  search (membershipSearch this) (mkSearchQuery (num_or (limit request) 100)) user w
    = (Ret members, w1) ->
  search (locationsSearch this) (mkSearchQuery (num_or (limit request) 50)) user w1
    = (Ret locations, w2) ->
  buildContext rt members locations request = Ret context ->
  redact (redactionService this) context = Ret redacted ->
  llm_analyze (llmProvider this) sanitized redacted None w2 = (Ret llmResult, w3) ->
  check (grounding this) redacted (summary llmResult) w3 = (Ret g, w4) ->
  postProcess (guardrails this) llmResult (userId user) w4 = (Ret post, w5) ->
  response post = Some result ->
  fst (analyze_try rt this request user name sanitized w) =
    (Ret {| i_question := question request;
            i_summary := summary result;
            i_confidence := confidence result;
            i_reasoning := reasoning result;
            dataPoints := {| membersAnalyzed := length members;
                             locationsAnalyzed := length locations |};
            generatedAt := toISOString_now rt w5;
            provider := name |}, w5).
Proof.
  intros Hm Hl Hb Hr Hllm Hg Hpost Hresp.
  unfold analyze_try, bind, promise_all2, eval, call, call_total, emit, ret.
  rewrite Hm, Hl. simpl. rewrite Hb, Hr. simpl. rewrite Hllm, Hg.
  destruct (grounded g); simpl; rewrite Hpost;
    destruct (valid post); simpl; rewrite Hresp; reflexivity.
Qed.

(** Whatever the [try] block returns carries the raw question and the
    provider's name. *)
Lemma analyze_try_ret_inv (request : AnalyzeRequest) (user : AuthenticatedUser)
  (name : string) (sanitized : option string) (w w' : W) (i : Insight) :
  fst (analyze_try rt this request user name sanitized w) = (Ret i, w') ->
  i_question i = question request /\ provider i = name.
Proof.
  unfold analyze_try, bind, promise_all2, eval, call, call_total, emit, ret, throw.
  destruct (search (membershipSearch this) _ user w) as [om w1].
  destruct (search (locationsSearch this) _ user w1) as [ol w2].
  destruct om as [members|em], ol as [locations|el]; simpl; try discriminate.
  destruct (buildContext rt members locations request) as [context|eb];
    simpl; try discriminate.
  destruct (redact (redactionService this) context) as [redacted|er];
    simpl; try discriminate.
  destruct (llm_analyze (llmProvider this) sanitized redacted None w2)
    as [[llmResult|e] w3]; simpl; try discriminate.
  destruct (check (grounding this) redacted (summary llmResult) w3)
    as [[g|e] w4]; simpl; try discriminate.
  destruct (grounded g); simpl;
    (destruct (postProcess (guardrails this) llmResult (userId user) w4)
       as [[post|e] w5]; simpl; try discriminate;
     destruct (valid post), (response post); simpl; try discriminate;
     intros H; injection H as <- _; simpl; auto).
Qed.

(** Each stage of the [try] block that throws makes the block throw. *)
Lemma search_failure_reaches_catch (request : AnalyzeRequest)
  (user : AuthenticatedUser) (name : string) (sanitized : option string) (w : W) :
  (exists e w1, search (membershipSearch this)
                  (mkSearchQuery (num_or (limit request) 100)) user w = (Threw e, w1)) \/
  (exists e o w1 w2,
     search (membershipSearch this)
       (mkSearchQuery (num_or (limit request) 100)) user w = (o, w1) /\
     search (locationsSearch this)
       (mkSearchQuery (num_or (limit request) 50)) user w1 = (Threw e, w2)) ->
  exists e, result_of (analyze_try rt this request user name sanitized w) = Threw e.
Proof.
  unfold analyze_try, result_of, bind, promise_all2.
  intros [(e & w1 & Hm) | (e & o & w1 & w2 & Hm & Hl)].
  - rewrite Hm.
    destruct (search (locationsSearch this) _ user w1) as [[locations|el] w2]; simpl;
      eauto.
  - rewrite Hm, Hl. destruct o as [members|em]; simpl; eauto.
Qed.

Lemma provider_failure_reaches_catch (request : AnalyzeRequest)
  (user : AuthenticatedUser) (name : string) (sanitized : option string)
  (w w1 w2 w3 : W) (members locations : list Rec) (context redacted : string)
  (e : Thrown) :
  search (membershipSearch this) (mkSearchQuery (num_or (limit request) 100)) user w
    = (Ret members, w1) ->
  search (locationsSearch this) (mkSearchQuery (num_or (limit request) 50)) user w1
    = (Ret locations, w2) ->
  buildContext rt members locations request = Ret context ->
  redact (redactionService this) context = Ret redacted ->
  llm_analyze (llmProvider this) sanitized redacted None w2 = (Threw e, w3) ->
  fst (analyze_try rt this request user name sanitized w) = (Threw e, w3).
Proof.
  intros Hm Hl Hb Hr Hllm.
  unfold analyze_try, bind, promise_all2, eval, call, call_total, emit, ret.
  rewrite Hm, Hl. simpl. rewrite Hb, Hr. simpl. rewrite Hllm. reflexivity.
Qed.

Lemma grounding_failure_reaches_catch (request : AnalyzeRequest)
  (user : AuthenticatedUser) (name : string) (sanitized : option string)
  (w w1 w2 w3 w4 : W) (members locations : list Rec) (context redacted : string)
  (llmResult : LLMAnalysisResult) (e : Thrown) :
  search (membershipSearch this) (mkSearchQuery (num_or (limit request) 100)) user w
    = (Ret members, w1) ->
  search (locationsSearch this) (mkSearchQuery (num_or (limit request) 50)) user w1
    = (Ret locations, w2) ->
  buildContext rt members locations request = Ret context ->
  redact (redactionService this) context = Ret redacted ->
  llm_analyze (llmProvider this) sanitized redacted None w2 = (Ret llmResult, w3) ->
  check (grounding this) redacted (summary llmResult) w3 = (Threw e, w4) ->
  fst (analyze_try rt this request user name sanitized w) = (Threw e, w4).
Proof.
  intros Hm Hl Hb Hr Hllm Hg.
  unfold analyze_try, bind, promise_all2, eval, call, call_total, emit, ret.
  rewrite Hm, Hl. simpl. rewrite Hb, Hr. simpl. rewrite Hllm, Hg. reflexivity.
Qed.

Lemma postprocess_failure_reaches_catch (request : AnalyzeRequest)
  (user : AuthenticatedUser) (name : string) (sanitized : option string)
  (w w1 w2 w3 w4 w5 : W) (members locations : list Rec) (context redacted : string)
  (llmResult : LLMAnalysisResult) (g : GroundingResult) (e : Thrown) :
  search (membershipSearch this) (mkSearchQuery (num_or (limit request) 100)) user w
    = (Ret members, w1) ->
  search (locationsSearch this) (mkSearchQuery (num_or (limit request) 50)) user w1
    = (Ret locations, w2) ->
  buildContext rt members locations request = Ret context ->
  redact (redactionService this) context = Ret redacted ->
  llm_analyze (llmProvider this) sanitized redacted None w2 = (Ret llmResult, w3) ->
  check (grounding this) redacted (summary llmResult) w3 = (Ret g, w4) ->
  postProcess (guardrails this) llmResult (userId user) w4 = (Threw e, w5) ->
  fst (analyze_try rt this request user name sanitized w) = (Threw e, w5).
Proof.
  intros Hm Hl Hb Hr Hllm Hg Hpost.
  unfold analyze_try, bind, promise_all2, eval, call, call_total, emit, ret.
  rewrite Hm, Hl. simpl. rewrite Hb, Hr. simpl. rewrite Hllm, Hg.
  destruct (grounded g); simpl; rewrite Hpost; reflexivity.
Qed.

(** The result of [analyze] for an allowed request. *)
Lemma analyze_allowed_result (request : AnalyzeRequest) (user : AuthenticatedUser)
  (w w1 : W) (pre : PreProcessResult) :
  preProcess (guardrails this) (question request) (userId user) w = (pre, w1) ->
  allowed pre = true ->
  fst (analyze rt this request user w) =
    match fst (analyze_try rt this request user (getName (llmProvider this))
                 (sanitizedQuestion pre) w1) with
    | (Ret i, w2) => (Ret i, w2)
    | (Threw e, w2) =>
        fst (analyze_catch rt this request user (getName (llmProvider this))
               (sanitizedQuestion pre) e w2)
    end.
Proof.
  intros Hpre Hal.
  rewrite (analyze_allowed request user w w1 pre Hpre Hal).
  rewrite <- guarded_result with (ev := EvTimerStop).
  destruct (try_catch_finally _ _ _ w1) as [[o w2] t]. reflexivity.
Qed.

(** C4: once preProcess has allowed the request, analyze returns an
    Insight and throws nothing; when the try block (context fetch, model
    call, grounding, post-processing) throws an error, the Insight returned
    has the summary, confidence and reasoning of handleError for that
    error, and dataPoints {membersAnalyzed: 0, locationsAnalyzed: 0}. *)
Theorem errors_become_fallback_insight (request : AnalyzeRequest)
  (user : AuthenticatedUser) (w w1 : W) (pre : PreProcessResult) :
  preProcess (guardrails this) (question request) (userId user) w = (pre, w1) ->
  allowed pre = true ->
  (exists i, result_of (analyze rt this request user w) = Ret i) /\
  (forall e w2,
     fst (analyze_try rt this request user (getName (llmProvider this))
            (sanitizedQuestion pre) w1) = (Threw e, w2) ->
     exists fallback w3,
       handleError (guardrails this) e (userId user) w2 = (fallback, w3) /\
       result_of (analyze rt this request user w) =
         Ret {| i_question := question request;
                i_summary := summary fallback;
                i_confidence := confidence fallback;
                i_reasoning := reasoning fallback;
                dataPoints := {| membersAnalyzed := 0; locationsAnalyzed := 0 |};
                generatedAt := toISOString_now rt w3;
                provider := getName (llmProvider this) |}).
Proof.
  intros Hpre Hal.
  pose proof (analyze_allowed_result request user w w1 pre Hpre Hal) as Hres.
  unfold result_of. split.
  - rewrite Hres.
    destruct (fst (analyze_try rt this request user _ _ w1)) as [[i|e] w2].
    + exists i. reflexivity.
    + rewrite analyze_catch_returns. simpl. eauto.
  - intros e w2 Htry. rewrite Hres, Htry, analyze_catch_returns. simpl.
    destruct (handleError (guardrails this) e (userId user) w2) as [fallback w3].
    exists fallback, w3. split; reflexivity.
Qed.

(** C7: on the successful path (request allowed, both searches, the
    context, the redaction, the provider, the grounding check and the
    post-processing all return), the returned Insight has a confidence among
    high, medium and low, membersAnalyzed is the length of the membership
    search result and locationsAnalyzed the length of the locations search
    result. *)
Theorem success_counts_records (request : AnalyzeRequest) (user : AuthenticatedUser)
  (w w0 w1 w2 w3 w4 w5 : W) (pre : PreProcessResult)
  (members locations : list Rec) (context redacted : string)
  (llmResult result : LLMAnalysisResult) (g : GroundingResult) (post : PostProcessResult) :
  preProcess (guardrails this) (question request) (userId user) w = (pre, w0) ->
  allowed pre = true ->
  search (membershipSearch this) (mkSearchQuery (num_or (limit request) 100)) user w0
    = (Ret members, w1) ->
  search (locationsSearch this) (mkSearchQuery (num_or (limit request) 50)) user w1
    = (Ret locations, w2) ->
  buildContext rt members locations request = Ret context ->
  redact (redactionService this) context = Ret redacted ->
  llm_analyze (llmProvider this) (sanitizedQuestion pre) redacted None w2
    = (Ret llmResult, w3) ->
  check (grounding this) redacted (summary llmResult) w3 = (Ret g, w4) ->
  postProcess (guardrails this) llmResult (userId user) w4 = (Ret post, w5) ->
  response post = Some result ->
  exists i,
    result_of (analyze rt this request user w) = Ret i /\
    (i_confidence i = high \/ i_confidence i = medium \/ i_confidence i = low) /\
    i_confidence i = confidence result /\
    membersAnalyzed (dataPoints i) = length members /\
    locationsAnalyzed (dataPoints i) = length locations.
Proof.
  intros Hpre Hal Hm Hl Hb Hr Hllm Hg Hpost Hresp.
  unfold result_of.
  rewrite (analyze_allowed_result request user w w0 pre Hpre Hal).
  rewrite (analyze_try_success request user _ _ w0 w1 w2 w3 w4 w5 members locations
             context redacted llmResult result g post Hm Hl Hb Hr Hllm Hg Hpost Hresp).
  eexists. split; [reflexivity |]. simpl.
  repeat split. destruct (confidence result); auto.
Qed.

End AgentProperties.

(** ** Properties that compare two services *)

Lemma analyze_try_grounding_irrelevant {W Rec : Type} (rt : Runtime W Rec)
  (this : AgentService W Rec) (g1 g2 : GroundingService W)
  (request : AnalyzeRequest) (user : AuthenticatedUser)
  (name : string) (sanitized : option string) (w : W) :
  (forall c s w0, exists r1 r2 w',
      check g1 c s w0 = (Ret r1, w') /\ check g2 c s w0 = (Ret r2, w')) ->
  fst (analyze_try rt (with_grounding this g1) request user name sanitized w) =
  fst (analyze_try rt (with_grounding this g2) request user name sanitized w).
Proof.
  intros Hsame.
  unfold analyze_try, with_grounding, bind, promise_all2, eval, call, call_total,
    emit, ret, throw.
  simpl.
  destruct (search (membershipSearch this) _ user w) as [om w1].
  destruct (search (locationsSearch this) _ user w1) as [ol w2].
  destruct om as [members|em], ol as [locations|el]; simpl; try reflexivity.
  destruct (buildContext rt members locations request) as [context|eb];
    simpl; try reflexivity.
  destruct (redact (redactionService this) context) as [redacted|er];
    simpl; try reflexivity.
  destruct (llm_analyze (llmProvider this) sanitized redacted None w2)
    as [[llmResult|e] w3]; simpl; try reflexivity.
  destruct (Hsame redacted (summary llmResult) w3) as (r1 & r2 & w4 & H1 & H2).
  rewrite H1, H2.
  destruct (grounded r1), (grounded r2); simpl;
    (destruct (postProcess (guardrails this) llmResult (userId user) w4)
       as [[post|e] w5]; simpl; try reflexivity;
     destruct (valid post), (response post); reflexivity).
Qed.

(** C6: two runs of analyze that differ only in the GroundingResult the
    grounding check returns (grounded or not, any score, any reason) give
    the caller the same result, Insight or error, and leave the
    collaborators in the same state. *)
Theorem grounding_is_advisory {W Rec : Type} (rt : Runtime W Rec)
  (this : AgentService W Rec) (g1 g2 : GroundingService W)
  (request : AnalyzeRequest) (user : AuthenticatedUser) (w : W) :
  (forall c s w0, exists r1 r2 w',
      check g1 c s w0 = (Ret r1, w') /\ check g2 c s w0 = (Ret r2, w')) ->
  fst (analyze rt (with_grounding this g1) request user w) =
  fst (analyze rt (with_grounding this g2) request user w).
Proof.
  intros Hsame.
  destruct (preProcess (guardrails this) (question request) (userId user) w)
    as [pre w1] eqn:Hpre.
  destruct (allowed pre) eqn:Hal.
  - rewrite (analyze_allowed_result rt (with_grounding this g1) request user w w1 pre
               Hpre Hal).
    rewrite (analyze_allowed_result rt (with_grounding this g2) request user w w1 pre
               Hpre Hal).
    rewrite (analyze_try_grounding_irrelevant rt this g1 g2 request user _ _ w1 Hsame).
    destruct (fst (analyze_try rt (with_grounding this g2) request user _ _ w1))
      as [[i|e] w2]; [reflexivity |].
    rewrite !analyze_catch_returns. reflexivity.
  - rewrite (analyze_rejected rt (with_grounding this g1) request user w w1 pre Hpre Hal).
    rewrite (analyze_rejected rt (with_grounding this g2) request user w w1 pre Hpre Hal).
    reflexivity.
Qed.

(** ** The properties on the sample deployment *)

Lemma rejection_is_generic_error_witness :
  allowed (fst (preProcess Demo.guard " Hi" "test-auditor-1" 0)) = false /\
  result_of (analyze Demo.runtime (Demo.service Demo.healthy true)
               (Demo.ask " Hi") Demo.user 0)
    = Threw (PlainError "Question is too short").
Proof.
  split; [reflexivity |].
  apply (rejection_is_generic_error Demo.runtime (Demo.service Demo.healthy true)
           (Demo.ask " Hi") Demo.user 0).
  reflexivity.
Defined.

Lemma errors_become_fallback_insight_witness :
  preProcess Demo.guard "  What drives dropout?" "test-auditor-1" 0 = (Demo.accepted, 1) /\
  allowed Demo.accepted = true /\
  fst (analyze_try Demo.runtime (Demo.service Demo.failing true)
         (Demo.ask "  What drives dropout?") Demo.user "gemini"
         (Some "What drives dropout?") 1)
    = (Threw (PlainError "503 from provider"), 4) /\
  exists fallback w3,
    handleError Demo.guard (PlainError "503 from provider") "test-auditor-1" 4
      = (fallback, w3) /\
    result_of (analyze Demo.runtime (Demo.service Demo.failing true)
                 (Demo.ask "  What drives dropout?") Demo.user 0) =
      Ret {| i_question := "  What drives dropout?";
             i_summary := summary fallback;
             i_confidence := confidence fallback;
             i_reasoning := reasoning fallback;
             dataPoints := {| membersAnalyzed := 0; locationsAnalyzed := 0 |};
             generatedAt := toISOString_now Demo.runtime w3;
             provider := "gemini" |}.
Proof.
  split; [reflexivity |]. split; [reflexivity |]. split; [reflexivity |].
  apply (proj2 (errors_become_fallback_insight Demo.runtime
                  (Demo.service Demo.failing true)
                  (Demo.ask "  What drives dropout?") Demo.user 0 1 Demo.accepted
                  eq_refl eq_refl)
           (PlainError "503 from provider") 4).
  reflexivity.
Defined.

Lemma grounding_is_advisory_witness :
  (forall c s w0, exists r1 r2 w',
      check (Demo.verdict true) c s w0 = (Ret r1, w') /\
      check (Demo.verdict false) c s w0 = (Ret r2, w')) /\
  fst (analyze Demo.runtime
         (with_grounding (Demo.service Demo.healthy true) (Demo.verdict true))
         (Demo.ask "  What drives dropout?") Demo.user 0) =
  fst (analyze Demo.runtime
         (with_grounding (Demo.service Demo.healthy true) (Demo.verdict false))
         (Demo.ask "  What drives dropout?") Demo.user 0).
Proof.
  assert (H : forall (c s : string) (w0 : nat), exists r1 r2 w',
             check (Demo.verdict true) c s w0 = (Ret r1, w') /\
             check (Demo.verdict false) c s w0 = (Ret r2, w')).
  { intros c s w0. do 3 eexists. split; reflexivity. }
  split; [exact H |].
  apply (grounding_is_advisory Demo.runtime (Demo.service Demo.healthy true)
           (Demo.verdict true) (Demo.verdict false)
           (Demo.ask "  What drives dropout?") Demo.user 0 H).
Defined.

Lemma success_counts_records_witness :
  exists i,
    result_of (analyze Demo.runtime (Demo.service Demo.healthy true)
                 (Demo.ask "  What drives dropout?") Demo.user 0) = Ret i /\
    (i_confidence i = high \/ i_confidence i = medium \/ i_confidence i = low) /\
    i_confidence i = high /\
    membersAnalyzed (dataPoints i) = 3 /\
    locationsAnalyzed (dataPoints i) = 2.
Proof.
  apply (success_counts_records Demo.runtime (Demo.service Demo.healthy true)
           (Demo.ask "  What drives dropout?") Demo.user 0 1 2 3 4 4 4
           Demo.accepted Demo.members Demo.locations Demo.context Demo.redacted
           Demo.answer Demo.answer
           {| grounded := true; score := (9 # 10)%Q; reason := None |}
           {| valid := true; response := Some Demo.answer |});
    reflexivity.
Defined.

(** ** The summaries of [buildContext] *)

Lemma increment_count_of (key k : string) (counts : list (string * nat)) :
  count_of k (increment key counts) =
    if String.eqb key k then S (count_of k counts) else count_of k counts.
Proof.
  induction counts as [| [k0 n] rest IH]; simpl.
  - destruct (String.eqb_spec key k); reflexivity.
  - destruct (String.eqb_spec k0 key) as [-> | Hne]; simpl.
    + destruct (String.eqb_spec key k) as [-> | Hk]; [lia | reflexivity].
    + destruct (String.eqb_spec k0 k) as [-> | Hk0].
      * destruct (String.eqb_spec key k); [congruence | reflexivity].
      * exact IH.
Qed.

Lemma increment_keys (key k : string) (counts : list (string * nat)) :
  In k (map fst (increment key counts)) <-> k = key \/ In k (map fst counts).
Proof.
  induction counts as [| [k0 n] rest IH]; simpl.
  - intuition.
  - destruct (String.eqb_spec k0 key) as [-> | Hne]; simpl; intuition.
Qed.

Lemma increment_NoDup (key : string) (counts : list (string * nat)) :
  NoDup (map fst counts) -> NoDup (map fst (increment key counts)).
Proof.
  induction counts as [| [k0 n] rest IH]; simpl; intros Hnd.
  - constructor; [intros [] | constructor].
  - inversion Hnd as [| ? ? Hnotin Hrest]; subst.
    destruct (String.eqb_spec k0 key) as [-> | Hne]; simpl.
    + constructor; assumption.
    + constructor; [| auto].
      rewrite increment_keys. intuition.
Qed.

Lemma increment_total (key : string) (counts : list (string * nat)) :
  total (increment key counts) = S (total counts).
Proof.
  unfold total.
  induction counts as [| [k0 n] rest IH]; simpl; [reflexivity |].
  destruct (String.eqb_spec k0 key); simpl; lia.
Qed.

Lemma increment_positive (key : string) (counts : list (string * nat)) :
  Forall (fun kv => 1 <= snd kv) counts ->
  Forall (fun kv => 1 <= snd kv) (increment key counts).
Proof.
  induction counts as [| [k0 n] rest IH]; simpl; intros Hall.
  - constructor; [simpl; lia | constructor].
  - inversion Hall; subst.
    destruct (String.eqb_spec k0 key); constructor; simpl in *; auto; lia.
Qed.

(** Counting the keys of a list one after the other, from given counts. *)
Lemma tally_spec {A : Type} (key_of : A -> string) (items : list A)
  (start : list (string * nat)) :
  let counts := fold_left (fun c x => increment (key_of x) c) items start in
  (forall k, count_of k counts =
             count_occ string_dec (map key_of items) k + count_of k start) /\
  (forall k, In k (map fst counts) <->
             In k (map key_of items) \/ In k (map fst start)) /\
  (NoDup (map fst start) -> NoDup (map fst counts)) /\
  total counts = length items + total start /\
  (Forall (fun kv => 1 <= snd kv) start -> Forall (fun kv => 1 <= snd kv) counts).
Proof.
  revert start. induction items as [| x rest IH]; intros start; cbv zeta; simpl.
  - repeat split; auto; tauto.
  - destruct (IH (increment (key_of x) start)) as (Hc & Hk & Hn & Ht & Hp).
    cbv zeta in *. repeat split.
    + intros k. rewrite Hc, increment_count_of.
      destruct (string_dec (key_of x) k) as [-> | Hne].
      * rewrite String.eqb_refl. lia.
      * destruct (String.eqb_spec (key_of x) k); [congruence | lia].
    + rewrite Hk, increment_keys. intuition.
    + rewrite Hk, increment_keys. intuition.
    + intros Hnd. apply Hn, increment_NoDup, Hnd.
    + rewrite Ht, increment_total. lia.
    + intros Hall. apply Hp, increment_positive, Hall.
Qed.

(** X1: when no status is the name of an inherited object property, for
    a non-empty result summarizeMembers prints the distribution byStatus,
    which has one entry per status that occurs, each status once, with the
    number of members of that status as its count. *)
Theorem status_distribution_is_exact {W Rec : Type} (rt : Runtime W Rec)
  (members : list Rec) :
  (forall m, In m members -> ~ In (member_status rt m) inherited_keys) ->
  (members <> [] ->
   summarizeMembers rt members =
     match JSON_stringify_records rt (firstn 5 members) with
     | Ret sample =>
         Ret ("Status distribution: " ++ JSON_stringify_counts rt (byStatus rt members)
              ++ nl ++ "Sample records: " ++ sample)
     | Threw e => Threw e
     end) /\
  (forall k, count_of k (byStatus rt members) =
             count_occ string_dec (map (member_status rt) members) k) /\
  (forall k, In k (map fst (byStatus rt members)) <->
             exists m, In m members /\ member_status rt m = k) /\
  NoDup (map fst (byStatus rt members)).
Proof.
  intros _.
  destruct (tally_spec (member_status rt) members []) as (Hc & Hk & Hn & _ & _).
  cbv zeta in *. fold (byStatus rt members) in *. repeat split.
  - intros Hne. destruct members as [| m rest]; [congruence | reflexivity].
  - intros k. rewrite Hc. simpl. lia.
  - intros Hin. apply Hk in Hin. simpl in Hin. destruct Hin as [Hin | []].
    apply in_map_iff in Hin. destruct Hin as (m & Hm & Hin). eauto.
  - intros (m & Hin & Hm). apply Hk. left. subst k. apply in_map, Hin.
  - apply Hn. constructor.
Qed.

(** X2: when no status and no region is the name of an inherited object
    property, the counts of byStatus add up to members.length and those of
    byRegion to locations.length, and no entry has a count of zero: every
    record is counted exactly once. *)
Theorem distributions_count_every_record {W Rec : Type} (rt : Runtime W Rec)
  (members locations : list Rec) :
  (forall m, In m members -> ~ In (member_status rt m) inherited_keys) ->
  (forall l, In l locations -> ~ In (location_region rt l) inherited_keys) ->
  total (byStatus rt members) = length members /\
  total (byRegion rt locations) = length locations /\
  Forall (fun kv => 1 <= snd kv) (byStatus rt members) /\
  Forall (fun kv => 1 <= snd kv) (byRegion rt locations).
Proof.
  intros _ _.
  destruct (tally_spec (member_status rt) members []) as (_ & _ & _ & Ht1 & Hp1).
  destruct (tally_spec (location_region rt) locations []) as (_ & _ & _ & Ht2 & Hp2).
  cbv zeta in *. unfold byStatus, byRegion.
  rewrite Ht1, Ht2. change (total []) with 0.
  repeat split; auto; lia.
Qed.

(** X3: when no region is the name of an inherited object property, for a
    non-empty result summarizeLocations prints the distribution byRegion,
    which has one entry per region that occurs, each region once, with the
    number of locations of that region as its count; a location with no
    region or an empty one is counted under 'unknown'. *)
Theorem region_distribution_is_exact {W Rec : Type} (rt : Runtime W Rec)
  (locations : list Rec) :
  (forall l, In l locations -> ~ In (location_region rt l) inherited_keys) ->
  (locations <> [] ->
   summarizeLocations rt locations =
     match JSON_stringify_records rt (firstn 3 locations) with
     | Ret sample =>
         Ret ("Region distribution: " ++ JSON_stringify_counts rt (byRegion rt locations)
              ++ nl ++ "Sample records: " ++ sample)
     | Threw e => Threw e
     end) /\
  (forall k, count_of k (byRegion rt locations) =
             count_occ string_dec (map (location_region rt) locations) k) /\
  NoDup (map fst (byRegion rt locations)) /\
  (forall l, location_region rt l <> "" /\
             (region rt l = None \/ region rt l = Some "" ->
              location_region rt l = "unknown") /\
             (forall r, region rt l = Some r -> r <> "" -> location_region rt l = r)).
Proof.
  intros _.
  destruct (tally_spec (location_region rt) locations []) as (Hc & _ & Hn & _ & _).
  cbv zeta in *. fold (byRegion rt locations) in *. repeat split.
  - intros Hne. destruct locations as [| l rest]; [congruence | reflexivity].
  - intros k. rewrite Hc. simpl. lia.
  - apply Hn. constructor.
  - unfold location_region, str_or. destruct (region rt l) as [r |]; [| discriminate].
    destruct (String.eqb_spec r ""); [discriminate | assumption].
  - unfold location_region. intros [Hreg | Hreg]; rewrite Hreg; reflexivity.
  - intros r Hreg Hr. unfold location_region, str_or. rewrite Hreg.
    destruct (String.eqb_spec r ""); [contradiction | reflexivity].
Qed.

Lemma split_space_0_no_space (s : string) :
  includes (split_space_0 s) " " = false.
Proof.
  induction s as [| c rest IH]; [reflexivity |].
  cbn [split_space_0].
  destruct (Ascii.eqb_spec c " "%char) as [-> | Hne]; [reflexivity |].
  cbn [includes prefix].
  destruct (ascii_dec " "%char c) as [<- | _]; [congruence |].
  exact IH.
Qed.

Lemma split_space_0_prefix (s : string) :
  exists rest, s = split_space_0 s ++ rest /\
               (rest = "" \/ exists r, rest = " " ++ r).
Proof.
  induction s as [| c s' IH]; simpl.
  - exists "". auto.
  - destruct (Ascii.eqb_spec c " "%char) as [-> | Hne]; simpl.
    + exists (String " "%char s'). split; [reflexivity |]. right. exists s'. reflexivity.
    + destruct IH as (rest & Heq & Hrest). exists rest. split; [| exact Hrest].
      f_equal. exact Heq.
Qed.

Lemma split_space_0_empty (s : string) :
  split_space_0 s = "" <-> s = "" \/ exists r, s = " " ++ r.
Proof.
  destruct s as [| c s']; simpl.
  - tauto.
  - destruct (Ascii.eqb_spec c " "%char) as [-> | Hne]; split.
    + intros _. right. exists s'. reflexivity.
    + reflexivity.
    + discriminate.
    + intros [H | [r H]]; [discriminate |]. simpl in H. congruence.
Qed.

(** X4: the status a member is counted under is never empty and holds no
    space; it is 'unknown' when status_notes is missing, empty or starts
    with a space, and otherwise the part of status_notes before its first
    space. *)
Theorem member_status_is_first_word {W Rec : Type} (rt : Runtime W Rec) (m : Rec) :
  member_status rt m <> "" /\
  includes (member_status rt m) " " = false /\
  (status_notes rt m = None -> member_status rt m = "unknown") /\
  (forall s, status_notes rt m = Some s ->
             (s = "" \/ exists r, s = " " ++ r) -> member_status rt m = "unknown") /\
  (forall s, status_notes rt m = Some s -> s <> "" -> (forall r, s <> " " ++ r) ->
             exists rest, s = member_status rt m ++ rest /\
                          (rest = "" \/ exists r, rest = " " ++ r)).
Proof.
  unfold member_status, str_or.
  destruct (status_notes rt m) as [s |]; simpl.
  - destruct (String.eqb_spec (split_space_0 s) "") as [Hempty | Hne].
    + repeat split; try discriminate; try reflexivity.
      intros s0 Hs0 Hs1 Hs2. injection Hs0 as <-.
      apply split_space_0_empty in Hempty.
      destruct Hempty as [H | [r H]]; [contradiction | exfalso; apply (Hs2 r H)].
    + repeat split; try discriminate.
      * exact Hne.
      * apply split_space_0_no_space.
      * intros s0 Hs0 Hs1. injection Hs0 as <-.
        exfalso. apply Hne, split_space_0_empty, Hs1.
      * intros s0 Hs0 _ _. injection Hs0 as <-. apply split_space_0_prefix.
  - repeat split; try discriminate; try reflexivity.
Qed.

(** X5: summarizeMembers gives JSON.stringify an array of at most five
    records and summarizeLocations one of at most three: how arrays beyond
    these lengths would be serialised has no effect on the summaries. *)
Theorem summaries_serialise_bounded_samples {W Rec : Type} (rt : Runtime W Rec)
  (stringify : list Rec -> outcome string) (members locations : list Rec) :
  ((forall sample, length sample <= 5 ->
                   stringify sample = JSON_stringify_records rt sample) ->
   summarizeMembers (with_stringify rt stringify) members = summarizeMembers rt members) /\
  ((forall sample, length sample <= 3 ->
                   stringify sample = JSON_stringify_records rt sample) ->
   summarizeLocations (with_stringify rt stringify) locations
     = summarizeLocations rt locations).
Proof.
  split; intros Hsame.
  - destruct members as [| m rest]; [reflexivity |].
    unfold summarizeMembers, with_stringify. cbn [JSON_stringify_records status_notes
      JSON_stringify_counts].
    rewrite Hsame; [reflexivity | apply firstn_le_length].
  - destruct locations as [| l rest]; [reflexivity |].
    unfold summarizeLocations, with_stringify. cbn [JSON_stringify_records region
      JSON_stringify_counts].
    rewrite Hsame; [reflexivity | apply firstn_le_length].
Qed.

(** X6: buildContext throws exactly when JSON.stringify throws on the
    sample of a non-empty result, the members' sample being serialised
    first; the error is the one of JSON.stringify.  With two empty results
    it never throws. *)
Theorem buildContext_throws_only_from_stringify {W Rec : Type} (rt : Runtime W Rec)
  (members locations : list Rec) (request : AnalyzeRequest) (e : Thrown) :
  (buildContext rt members locations request = Threw e <->
   (members <> [] /\ JSON_stringify_records rt (firstn 5 members) = Threw e) \/
   ((members = [] \/ exists s, JSON_stringify_records rt (firstn 5 members) = Ret s) /\
    locations <> [] /\ JSON_stringify_records rt (firstn 3 locations) = Threw e)) /\
  (exists context, buildContext rt [] [] request = Ret context).
Proof.
  split; [| unfold buildContext; simpl; eauto].
  unfold buildContext.
  destruct members as [| m ms].
  - simpl summarizeMembers. cbv iota.
    destruct locations as [| l ls].
    + simpl. split; [discriminate |].
      intros [[H _] | [_ [H _]]]; congruence.
    + unfold summarizeLocations.
      destruct (JSON_stringify_records rt (firstn 3 (l :: ls))) as [s | e'].
      * split; [discriminate |].
        intros [[H _] | [_ [_ H]]]; [congruence | discriminate].
      * split.
        -- intros H. injection H as ->. right.
           split; [left; reflexivity |]. split; [discriminate | reflexivity].
        -- intros [[H _] | [_ [_ H]]]; congruence.
  - unfold summarizeMembers.
    destruct (JSON_stringify_records rt (firstn 5 (m :: ms))) as [s | e'].
    + destruct locations as [| l ls].
      * simpl. split; [discriminate |].
        intros [[_ H] | [_ [H _]]]; congruence.
      * unfold summarizeLocations.
        destruct (JSON_stringify_records rt (firstn 3 (l :: ls))) as [s' | e''].
        -- split; [discriminate |].
           intros [[_ H] | [_ [_ H]]]; discriminate.
        -- split.
           ++ intros H. injection H as ->. right.
              split; [right; eauto |]. split; [discriminate | reflexivity].
           ++ intros [[_ H] | [_ [_ H]]]; congruence.
    + split.
      * intros H. injection H as ->. left. split; [discriminate | reflexivity].
      * intros [[_ H] | [[H | [s H]] _]]; congruence.
Qed.

(** X7: of the request, buildContext reads the locationId only, and an
    empty locationId is the same as none: the question and the limit never
    enter the context. *)
Theorem context_reads_only_locationId {W Rec : Type} (rt : Runtime W Rec)
  (members locations : list Rec) (r1 r2 : AnalyzeRequest) :
  str_or (locationId r1) "" = str_or (locationId r2) "" ->
  buildContext rt members locations r1 = buildContext rt members locations r2.
Proof.
  intros Hsame. unfold buildContext.
  destruct (summarizeMembers rt members) as [ms | e]; [| reflexivity].
  destruct (summarizeLocations rt locations) as [ls | e]; [| reflexivity].
  assert (Hfocus : forall loc : option string,
             match loc with
             | Some id => if String.eqb id "" then "" else "FOCUS: Location ID " ++ id
             | None => ""
             end =
             if String.eqb (str_or loc "") "" then ""
             else "FOCUS: Location ID " ++ str_or loc "").
  { intros [id |]; simpl; [| reflexivity].
    destruct (String.eqb_spec id "") as [-> | Hne]; simpl; [reflexivity |].
    destruct (String.eqb_spec id ""); [contradiction | reflexivity]. }
  rewrite (Hfocus (locationId r1)), (Hfocus (locationId r2)), Hsame. reflexivity.
Qed.

(** ** More on the runs of [analyze] *)

(** Case analysis along a run: take the innermost scrutinee apart. *)
Ltac break_match :=
  match goal with
  | |- context [match ?x with _ => _ end] =>
      lazymatch x with
      | context [match _ with _ => _ end] => fail
      | _ => destruct x eqn:?
      end
  end.

Ltac unfold_try :=
  unfold analyze_try, events_of, result_of, bind, promise_all2, eval, call,
    call_total, emit, ret, throw.

Lemma guarded_events {W Rec : Type} (rt : Runtime W Rec) (this : AgentService W Rec)
  (request : AnalyzeRequest) (user : AuthenticatedUser) (name : string)
  (sanitized : option string) (w : W) :
  events_of (try_catch_finally
               (analyze_try rt this request user name sanitized)
               (analyze_catch rt this request user name sanitized)
               (emit EvTimerStop) w) =
    (events_of (analyze_try rt this request user name sanitized w) ++
     match result_of (analyze_try rt this request user name sanitized w) with
     | Ret _ => []
     | Threw e => [EvAnalysisCounter name "error"; EvLogFailed e sanitized]
     end ++ [EvTimerStop])%list.
Proof.
  unfold try_catch_finally, events_of, result_of, emit.
  destruct (analyze_try rt this request user name sanitized w) as [[[i | e] w1] t1];
    simpl; [reflexivity |].
  rewrite analyze_catch_returns. reflexivity.
Qed.

Lemma analyze_allowed_events {W Rec : Type} (rt : Runtime W Rec)
  (this : AgentService W Rec) (request : AnalyzeRequest) (user : AuthenticatedUser)
  (w w1 : W) (pre : PreProcessResult) :
  preProcess (guardrails this) (question request) (userId user) w = (pre, w1) ->
  allowed pre = true ->
  events_of (analyze rt this request user w) =
    (EvTimerStart :: EvGuardrailsCounter "input" "allowed" ::
     events_of (analyze_try rt this request user (getName (llmProvider this))
                  (sanitizedQuestion pre) w1) ++
     match result_of (analyze_try rt this request user (getName (llmProvider this))
                        (sanitizedQuestion pre) w1) with
     | Ret _ => []
     | Threw e => [EvAnalysisCounter (getName (llmProvider this)) "error";
                   EvLogFailed e (sanitizedQuestion pre)]
     end ++ [EvTimerStop])%list.
Proof.
  intros Hpre Hal.
  rewrite (analyze_allowed rt this request user w w1 pre Hpre Hal).
  rewrite <- guarded_events.
  destruct (try_catch_finally _ _ _ w1) as [[o w2] t]. reflexivity.
Qed.

(** The events of the [try] block: no timer event, and at most one
    invocation of the provider. *)
Lemma analyze_try_events {W Rec : Type} (rt : Runtime W Rec)
  (this : AgentService W Rec) (request : AnalyzeRequest) (user : AuthenticatedUser)
  (name : string) (sanitized : option string) (w : W) :
  ~ In EvTimerStop (events_of (analyze_try rt this request user name sanitized w)) /\
  length (llm_calls (events_of (analyze_try rt this request user name sanitized w))) <= 1.
Proof.
  unfold_try. unfold llm_calls.
  repeat (break_match; simpl); split; try lia; intuition discriminate.
Qed.

(** X8: a rejected request runs nothing after preProcess: the
    collaborators are left as preProcess left them, one 'blocked' count is
    recorded and nothing else, the duration timer that was started is never
    stopped, and no other collaborator nor the runtime has any influence on
    the run. *)
Theorem rejected_request_stops_at_guardrails {W Rec : Type} (rt rt' : Runtime W Rec)
  (this this' : AgentService W Rec) (request : AnalyzeRequest)
  (user : AuthenticatedUser) (w : W) :
  allowed (fst (preProcess (guardrails this) (question request) (userId user) w))
    = false ->
  snd (fst (analyze rt this request user w)) =
    snd (preProcess (guardrails this) (question request) (userId user) w) /\
  events_of (analyze rt this request user w) =
    [EvTimerStart; EvGuardrailsCounter "input" "blocked"] /\
  ~ In EvTimerStop (events_of (analyze rt this request user w)) /\
  (guardrails this' = guardrails this ->
   analyze rt' this' request user w = analyze rt this request user w).
Proof.
  destruct (preProcess (guardrails this) (question request) (userId user) w)
    as [pre w1] eqn:Hpre.
  simpl. intros Hal.
  rewrite (analyze_rejected rt this request user w w1 pre Hpre Hal).
  repeat split.
  - simpl. intuition discriminate.
  - intros Hsame. rewrite <- Hsame in Hpre.
    apply (analyze_rejected rt' this' request user w w1 pre Hpre Hal).
Qed.

(** X9: a limit of 0 is the same as no limit: the run, its result, its
    events and what it asks of the collaborators are those of the same
    request without a limit. *)
Theorem zero_limit_is_no_limit {W Rec : Type} (rt : Runtime W Rec)
  (this : AgentService W Rec) (q : string) (loc : option string)
  (user : AuthenticatedUser) (w : W) :
  analyze rt this {| question := q; locationId := loc; limit := Some 0%Z |} user w =
  analyze rt this {| question := q; locationId := loc; limit := None |} user w.
Proof.
  reflexivity.
Qed.

(** X11: for an allowed request the duration timer is stopped exactly
    once, as the last thing analyze does, on the successful path and on the
    error path alike. *)
Theorem timer_stopped_last {W Rec : Type} (rt : Runtime W Rec)
  (this : AgentService W Rec) (request : AnalyzeRequest) (user : AuthenticatedUser)
  (w : W) :
  allowed (fst (preProcess (guardrails this) (question request) (userId user) w))
    = true ->
  exists before,
    events_of (analyze rt this request user w) = (before ++ [EvTimerStop])%list /\
    ~ In EvTimerStop before /\
    hd_error before = Some EvTimerStart.
Proof.
  destruct (preProcess (guardrails this) (question request) (userId user) w)
    as [pre w1] eqn:Hpre.
  simpl. intros Hal.
  rewrite (analyze_allowed_events rt this request user w w1 pre Hpre Hal).
  pose proof (proj1 (analyze_try_events rt this request user
                       (getName (llmProvider this)) (sanitizedQuestion pre) w1)) as Hno.
  eexists (EvTimerStart :: EvGuardrailsCounter "input" "allowed" :: _ ++ _)%list.
  split; [| split].
  - simpl. rewrite <- app_assoc. reflexivity.
  - simpl. rewrite in_app_iff.
    destruct (result_of (analyze_try rt this request user _ _ w1)); simpl;
      intuition discriminate.
  - reflexivity.
Qed.

(** What the [try] block returns has been through [postProcess]. *)
Lemma analyze_try_ret_postprocessed {W Rec : Type} (rt : Runtime W Rec)
  (this : AgentService W Rec) (request : AnalyzeRequest) (user : AuthenticatedUser)
  (name : string) (sanitized : option string) (w w' : W) (i : Insight) :
  fst (analyze_try rt this request user name sanitized w) = (Ret i, w') ->
  exists redacted llmResult post result w2 w3 w4,
    llm_analyze (llmProvider this) sanitized redacted None w2 = (Ret llmResult, w3) /\
    postProcess (guardrails this) llmResult (userId user) w4 = (Ret post, w') /\
    response post = Some result /\
    i_summary i = summary result /\
    i_confidence i = confidence result /\
    i_reasoning i = reasoning result.
Proof.
  unfold analyze_try, bind, promise_all2, eval, call, call_total, emit, ret, throw.
  destruct (search (membershipSearch this) _ user w) as [om w1].
  destruct (search (locationsSearch this) _ user w1) as [ol w2].
  destruct om as [members|em], ol as [locations|el]; simpl; try discriminate.
  destruct (buildContext rt members locations request) as [context|eb];
    simpl; try discriminate.
  destruct (redact (redactionService this) context) as [redacted|er];
    simpl; try discriminate.
  destruct (llm_analyze (llmProvider this) sanitized redacted None w2)
    as [[llmResult|e] w3] eqn:Hllm; simpl; try discriminate.
  destruct (check (grounding this) redacted (summary llmResult) w3)
    as [[g|e] w4]; simpl; try discriminate.
  destruct (grounded g); simpl;
    (destruct (postProcess (guardrails this) llmResult (userId user) w4)
       as [[post|e] w5] eqn:Hpost; simpl; try discriminate;
     destruct (valid post), (response post) as [result |] eqn:Hresp;
       simpl; try discriminate;
     intros H; injection H as <- <-;
     exists redacted, llmResult, post, result, w2, w3, w4; simpl;
     repeat split; auto).
Qed.

(** X12: the caller never gets the provider's answer as it came: the
    summary, confidence and reasoning of a returned Insight are those of the
    response postProcess gave for the provider's answer, or those of
    handleError, in which case both counts are 0. *)
Theorem insight_is_postprocessed_or_fallback {W Rec : Type} (rt : Runtime W Rec)
  (this : AgentService W Rec) (request : AnalyzeRequest) (user : AuthenticatedUser)
  (w : W) (i : Insight) :
  result_of (analyze rt this request user w) = Ret i ->
  (exists redacted llmResult post result w2 w3 w4 w5,
      llm_analyze (llmProvider this)
        (sanitizedQuestion
           (fst (preProcess (guardrails this) (question request) (userId user) w)))
        redacted None w2 = (Ret llmResult, w3) /\
      postProcess (guardrails this) llmResult (userId user) w4 = (Ret post, w5) /\
      response post = Some result /\
      i_summary i = summary result /\
      i_confidence i = confidence result /\
      i_reasoning i = reasoning result) \/
  (exists e w2 fallback w3,
      handleError (guardrails this) e (userId user) w2 = (fallback, w3) /\
      i_summary i = summary fallback /\
      i_confidence i = confidence fallback /\
      i_reasoning i = reasoning fallback /\
      dataPoints i = {| membersAnalyzed := 0; locationsAnalyzed := 0 |}).
Proof.
  destruct (preProcess (guardrails this) (question request) (userId user) w)
    as [pre w1] eqn:Hpre.
  simpl. unfold result_of. destruct (allowed pre) eqn:Hal.
  - rewrite (analyze_allowed_result rt this request user w w1 pre Hpre Hal).
    destruct (fst (analyze_try rt this request user _ _ w1)) as [[i0 | e] w2] eqn:Htry.
    + simpl. intros H. injection H as <-. left.
      destruct (analyze_try_ret_postprocessed rt this request user _ _ w1 w2 i0 Htry)
        as (redacted & llmResult & post & result & v2 & v3 & v4 & H1 & H2 & H3).
      exists redacted, llmResult, post, result, v2, v3, v4, w2. tauto.
    + rewrite analyze_catch_returns. simpl. intros H. injection H as <-. right.
      destruct (handleError (guardrails this) e (userId user) w2) as [fallback w3] eqn:Hh.
      exists e, w2, fallback, w3. simpl. repeat split; auto.
  - rewrite (analyze_rejected rt this request user w w1 pre Hpre Hal).
    discriminate.
Qed.

Lemma analyze_try_valid_irrelevant {W Rec : Type} (rt : Runtime W Rec)
  (this : AgentService W Rec)
  (pp1 pp2 : LLMAnalysisResult -> string -> W -> outcome PostProcessResult * W)
  (request : AnalyzeRequest) (user : AuthenticatedUser)
  (name : string) (sanitized : option string) (w : W) :
  (forall r u w0, exists p1 p2 w',
      pp1 r u w0 = (Ret p1, w') /\ pp2 r u w0 = (Ret p2, w') /\
      response p1 = response p2) ->
  fst (analyze_try rt (with_postProcess this pp1) request user name sanitized w) =
  fst (analyze_try rt (with_postProcess this pp2) request user name sanitized w).
Proof.
  intros Hsame.
  unfold analyze_try, with_postProcess, bind, promise_all2, eval, call, call_total,
    emit, ret, throw.
  simpl.
  destruct (search (membershipSearch this) _ user w) as [om w1].
  destruct (search (locationsSearch this) _ user w1) as [ol w2].
  destruct om as [members|em], ol as [locations|el]; simpl; try reflexivity.
  destruct (buildContext rt members locations request) as [context|eb];
    simpl; try reflexivity.
  destruct (redact (redactionService this) context) as [redacted|er];
    simpl; try reflexivity.
  destruct (llm_analyze (llmProvider this) sanitized redacted None w2)
    as [[llmResult|e] w3]; simpl; try reflexivity.
  destruct (check (grounding this) redacted (summary llmResult) w3)
    as [[g|e] w4]; simpl; try reflexivity.
  destruct (Hsame llmResult (userId user) w4) as (p1 & p2 & w5 & H1 & H2 & Hresp).
  destruct (grounded g); simpl; rewrite H1, H2;
    destruct (valid p1), (valid p2); simpl; rewrite Hresp;
    destruct (response p2); reflexivity.
Qed.

(** X13: the valid flag of postProcess decides a counter label only: two
    runs whose postProcess results differ in valid but carry the same
    response give the caller the same result and leave the collaborators
    in the same state. *)
Theorem validity_flag_is_only_counted {W Rec : Type} (rt : Runtime W Rec)
  (this : AgentService W Rec)
  (pp1 pp2 : LLMAnalysisResult -> string -> W -> outcome PostProcessResult * W)
  (request : AnalyzeRequest) (user : AuthenticatedUser) (w : W) :
  (forall r u w0, exists p1 p2 w',
      pp1 r u w0 = (Ret p1, w') /\ pp2 r u w0 = (Ret p2, w') /\
      response p1 = response p2) ->
  fst (analyze rt (with_postProcess this pp1) request user w) =
  fst (analyze rt (with_postProcess this pp2) request user w).
Proof.
  intros Hsame.
  destruct (preProcess (guardrails this) (question request) (userId user) w)
    as [pre w1] eqn:Hpre.
  destruct (allowed pre) eqn:Hal.
  - rewrite (analyze_allowed_result rt (with_postProcess this pp1) request user w w1 pre
               Hpre Hal).
    rewrite (analyze_allowed_result rt (with_postProcess this pp2) request user w w1 pre
               Hpre Hal).
    rewrite (analyze_try_valid_irrelevant rt this pp1 pp2 request user _ _ w1 Hsame).
    destruct (fst (analyze_try rt (with_postProcess this pp2) request user _ _ w1))
      as [[i|e] w2]; [reflexivity |].
    rewrite !analyze_catch_returns. reflexivity.
  - rewrite (analyze_rejected rt (with_postProcess this pp1) request user w w1 pre
               Hpre Hal).
    rewrite (analyze_rejected rt (with_postProcess this pp2) request user w w1 pre
               Hpre Hal).
    reflexivity.
Qed.

(** X14: the grounding check is advisory only as long as it returns: when
    it throws after the provider has answered, the answer is dropped and
    the caller gets the Insight of handleError for that error, with both
    counts 0. *)
Theorem grounding_exception_discards_answer {W Rec : Type} (rt : Runtime W Rec)
  (this : AgentService W Rec) (request : AnalyzeRequest) (user : AuthenticatedUser)
  (w w0 w1 w2 w3 w4 : W) (pre : PreProcessResult)
  (members locations : list Rec) (context redacted : string)
  (llmResult : LLMAnalysisResult) (e : Thrown) :
  preProcess (guardrails this) (question request) (userId user) w = (pre, w0) ->
  allowed pre = true ->
  search (membershipSearch this) (mkSearchQuery (num_or (limit request) 100)) user w0
    = (Ret members, w1) ->
  search (locationsSearch this) (mkSearchQuery (num_or (limit request) 50)) user w1
    = (Ret locations, w2) ->
  buildContext rt members locations request = Ret context ->
  redact (redactionService this) context = Ret redacted ->
  llm_analyze (llmProvider this) (sanitizedQuestion pre) redacted None w2
    = (Ret llmResult, w3) ->
  check (grounding this) redacted (summary llmResult) w3 = (Threw e, w4) ->
  result_of (analyze rt this request user w) =
    Ret {| i_question := question request;
           i_summary := summary (fst (handleError (guardrails this) e (userId user) w4));
           i_confidence :=
             confidence (fst (handleError (guardrails this) e (userId user) w4));
           i_reasoning :=
             reasoning (fst (handleError (guardrails this) e (userId user) w4));
           dataPoints := {| membersAnalyzed := 0; locationsAnalyzed := 0 |};
           generatedAt :=
             toISOString_now rt
               (snd (handleError (guardrails this) e (userId user) w4));
           provider := getName (llmProvider this) |}.
Proof.
  intros Hpre Hal Hm Hl Hb Hr Hllm Hg.
  unfold result_of.
  rewrite (analyze_allowed_result rt this request user w w0 pre Hpre Hal).
  rewrite (grounding_failure_reaches_catch rt this request user _ _ w0 w1 w2 w3 w4
             members locations context redacted llmResult e Hm Hl Hb Hr Hllm Hg).
  rewrite analyze_catch_returns. reflexivity.
Qed.

(** X15: when postProcess returns without a response, reading the
    response fails after the analysis has been counted as a success: the
    run records both a 'success' and an 'error' count and the caller gets
    the Insight of handleError for a TypeError. *)
Theorem missing_response_counts_success_and_error {W Rec : Type}
  (rt : Runtime W Rec) (this : AgentService W Rec) (request : AnalyzeRequest)
  (user : AuthenticatedUser) (w w0 w1 w2 w3 w4 w5 : W) (pre : PreProcessResult)
  (members locations : list Rec) (context redacted : string)
  (llmResult : LLMAnalysisResult) (g : GroundingResult) (post : PostProcessResult) :
  preProcess (guardrails this) (question request) (userId user) w = (pre, w0) ->
  allowed pre = true ->
  search (membershipSearch this) (mkSearchQuery (num_or (limit request) 100)) user w0
    = (Ret members, w1) ->
  search (locationsSearch this) (mkSearchQuery (num_or (limit request) 50)) user w1
    = (Ret locations, w2) ->
  buildContext rt members locations request = Ret context ->
  redact (redactionService this) context = Ret redacted ->
  llm_analyze (llmProvider this) (sanitizedQuestion pre) redacted None w2
    = (Ret llmResult, w3) ->
  check (grounding this) redacted (summary llmResult) w3 = (Ret g, w4) ->
  postProcess (guardrails this) llmResult (userId user) w4 = (Ret post, w5) ->
  response post = None ->
  (exists message,
     result_of (analyze rt this request user w) =
       Ret {| i_question := question request;
              i_summary :=
                summary (fst (handleError (guardrails this) (TypeError message)
                                (userId user) w5));
              i_confidence :=
                confidence (fst (handleError (guardrails this) (TypeError message)
                                   (userId user) w5));
              i_reasoning :=
                reasoning (fst (handleError (guardrails this) (TypeError message)
                                  (userId user) w5));
              dataPoints := {| membersAnalyzed := 0; locationsAnalyzed := 0 |};
              generatedAt :=
                toISOString_now rt
                  (snd (handleError (guardrails this) (TypeError message)
                          (userId user) w5));
              provider := getName (llmProvider this) |}) /\
  In (EvAnalysisCounter (getName (llmProvider this)) "success")
     (events_of (analyze rt this request user w)) /\
  In (EvAnalysisCounter (getName (llmProvider this)) "error")
     (events_of (analyze rt this request user w)).
Proof.
  intros Hpre Hal Hm Hl Hb Hr Hllm Hg Hpost Hresp.
  assert (Htry : exists message t,
             analyze_try rt this request user (getName (llmProvider this))
               (sanitizedQuestion pre) w0 = (Threw (TypeError message), w5, t) /\
             In (EvAnalysisCounter (getName (llmProvider this)) "success") t).
  { unfold analyze_try, bind, promise_all2, eval, call, call_total, emit, ret, throw.
    rewrite Hm, Hl. simpl. rewrite Hb, Hr. simpl. rewrite Hllm, Hg.
    destruct (grounded g); simpl; rewrite Hpost;
      destruct (valid post); simpl; rewrite Hresp;
      do 2 eexists; (split; [reflexivity | simpl; tauto]). }
  destruct Htry as (message & t & Htry & Hin).
  split; [| split].
  - exists message. unfold result_of.
    rewrite (analyze_allowed_result rt this request user w w0 pre Hpre Hal).
    rewrite Htry. simpl. rewrite analyze_catch_returns. reflexivity.
  - rewrite (analyze_allowed_events rt this request user w w0 pre Hpre Hal).
    rewrite Htry. unfold events_of. simpl. right. right.
    apply in_or_app. left. exact Hin.
  - rewrite (analyze_allowed_events rt this request user w w0 pre Hpre Hal).
    rewrite Htry. unfold events_of, result_of. simpl. right. right.
    apply in_or_app. right. simpl. tauto.
Qed.

(** ** The further properties on the sample deployment *)

Lemma status_distribution_is_exact_witness :
  Demo.members <> [] /\
  summarizeMembers Demo.runtime Demo.members =
    match JSON_stringify_records Demo.runtime (firstn 5 Demo.members) with
    | Ret sample =>
        Ret ("Status distribution: "
             ++ JSON_stringify_counts Demo.runtime (byStatus Demo.runtime Demo.members)
             ++ nl ++ "Sample records: " ++ sample)
    | Threw e => Threw e
    end /\
  byStatus Demo.runtime Demo.members = [("active", 1); ("dropped", 1); ("unknown", 1)].
Proof.
  assert (H : Demo.members <> []) by discriminate.
  assert (Hown : forall m, In m Demo.members ->
                           ~ In (member_status Demo.runtime m) inherited_keys).
  { intros m [<- | [<- | [<- | []]]]; vm_compute; intuition discriminate. }
  split; [exact H |]. split; [| reflexivity].
  apply (proj1 (status_distribution_is_exact Demo.runtime Demo.members Hown) H).
Defined.

Lemma distributions_count_every_record_witness :
  total (byStatus Demo.runtime Demo.members) = 3 /\
  total (byRegion Demo.runtime Demo.locations) = 2.
Proof.
  assert (Hm : forall m, In m Demo.members ->
                         ~ In (member_status Demo.runtime m) inherited_keys).
  { intros m [<- | [<- | [<- | []]]]; vm_compute; intuition discriminate. }
  assert (Hl : forall l, In l Demo.locations ->
                         ~ In (location_region Demo.runtime l) inherited_keys).
  { intros l [<- | [<- | []]]; vm_compute; intuition discriminate. }
  destruct (distributions_count_every_record Demo.runtime Demo.members Demo.locations
              Hm Hl) as (H1 & H2 & _).
  split; [exact H1 | exact H2].
Defined.

Lemma region_distribution_is_exact_witness :
  Demo.locations <> [] /\
  summarizeLocations Demo.runtime Demo.locations =
    match JSON_stringify_records Demo.runtime (firstn 3 Demo.locations) with
    | Ret sample =>
        Ret ("Region distribution: "
             ++ JSON_stringify_counts Demo.runtime (byRegion Demo.runtime Demo.locations)
             ++ nl ++ "Sample records: " ++ sample)
    | Threw e => Threw e
    end /\
  byRegion Demo.runtime Demo.locations = [("Southeast", 1); ("unknown", 1)].
Proof.
  assert (H : Demo.locations <> []) by discriminate.
  assert (Hown : forall l, In l Demo.locations ->
                           ~ In (location_region Demo.runtime l) inherited_keys).
  { intros l [<- | [<- | []]]; vm_compute; intuition discriminate. }
  split; [exact H |]. split; [| reflexivity].
  apply (proj1 (region_distribution_is_exact Demo.runtime Demo.locations Hown) H).
Defined.

Lemma member_status_is_first_word_witness :
  status_notes Demo.runtime (Some "active since 2021", None) = Some "active since 2021" /\
  member_status Demo.runtime (Some "active since 2021", None) = "active" /\
  exists rest,
    "active since 2021" = member_status Demo.runtime (Some "active since 2021", None) ++ rest /\
    (rest = "" \/ exists r, rest = " " ++ r).
Proof.
  split; [reflexivity |]. split; [reflexivity |].
  apply (proj2 (proj2 (proj2 (proj2
           (member_status_is_first_word Demo.runtime (Some "active since 2021", None)))))
           "active since 2021" eq_refl).
  - discriminate.
  - intros r H. discriminate.
Defined.

Lemma summaries_serialise_bounded_samples_witness :
  summarizeMembers
    (with_stringify Demo.runtime
       (fun sample => if Nat.leb (length sample) 5
                      then JSON_stringify_records Demo.runtime sample
                      else Threw (TypeError "too many records")))
    (Demo.members ++ Demo.members ++ Demo.members)
  = summarizeMembers Demo.runtime (Demo.members ++ Demo.members ++ Demo.members).
Proof.
  apply (proj1 (summaries_serialise_bounded_samples Demo.runtime
                  (fun sample => if Nat.leb (length sample) 5
                                 then JSON_stringify_records Demo.runtime sample
                                 else Threw (TypeError "too many records"))
                  (Demo.members ++ Demo.members ++ Demo.members) Demo.locations)).
  intros sample Hlen. apply Nat.leb_le in Hlen. rewrite Hlen. reflexivity.
Defined.

Lemma buildContext_throws_only_from_stringify_witness :
  Demo.members <> [] /\
  JSON_stringify_records
    (with_stringify Demo.runtime (fun _ => Threw (TypeError "circular structure")))
    (firstn 5 Demo.members) = Threw (TypeError "circular structure") /\
  buildContext
    (with_stringify Demo.runtime (fun _ => Threw (TypeError "circular structure")))
    Demo.members [] (Demo.ask "What drives dropout?")
  = Threw (TypeError "circular structure").
Proof.
  assert (H : Demo.members <> []) by discriminate.
  split; [exact H |]. split; [reflexivity |].
  apply (proj2 (proj1 (buildContext_throws_only_from_stringify
                         (with_stringify Demo.runtime
                            (fun _ => Threw (TypeError "circular structure")))
                         Demo.members [] (Demo.ask "What drives dropout?")
                         (TypeError "circular structure")))).
  left. split; [exact H | reflexivity].
Defined.

Lemma context_reads_only_locationId_witness :
  str_or (Some "") "" = str_or None "" /\
  buildContext Demo.runtime Demo.members Demo.locations
    {| question := "What drives dropout?"; locationId := Some ""; limit := Some 10%Z |} =
  buildContext Demo.runtime Demo.members Demo.locations
    {| question := "Which regions grow?"; locationId := None; limit := None |}.
Proof.
  split; [reflexivity |].
  apply (context_reads_only_locationId Demo.runtime Demo.members Demo.locations
           {| question := "What drives dropout?"; locationId := Some "";
              limit := Some 10%Z |}
           {| question := "Which regions grow?"; locationId := None; limit := None |}).
  reflexivity.
Defined.

Lemma rejected_request_stops_at_guardrails_witness :
  allowed (fst (preProcess Demo.guard " Hi" "test-auditor-1" 0)) = false /\
  events_of (analyze Demo.runtime (Demo.service Demo.healthy true) (Demo.ask " Hi")
               Demo.user 0)
    = [EvTimerStart; EvGuardrailsCounter "input" "blocked"] /\
  analyze Demo.runtime (Demo.service Demo.failing false) (Demo.ask " Hi") Demo.user 0 =
  analyze Demo.runtime (Demo.service Demo.healthy true) (Demo.ask " Hi") Demo.user 0.
Proof.
  split; [reflexivity |].
  destruct (rejected_request_stops_at_guardrails Demo.runtime Demo.runtime
              (Demo.service Demo.healthy true) (Demo.service Demo.failing false)
              (Demo.ask " Hi") Demo.user 0 eq_refl) as (_ & Hev & _ & Hsame).
  split; [exact Hev | apply Hsame; reflexivity].
Defined.

Lemma timer_stopped_last_witness :
  allowed (fst (preProcess Demo.guard "  What drives dropout?" "test-auditor-1" 0))
    = true /\
  exists before,
    events_of (analyze Demo.runtime (Demo.service Demo.failing true)
                 (Demo.ask "  What drives dropout?") Demo.user 0)
      = (before ++ [EvTimerStop])%list /\
    ~ In EvTimerStop before /\
    hd_error before = Some EvTimerStart.
Proof.
  split; [reflexivity |].
  apply (timer_stopped_last Demo.runtime (Demo.service Demo.failing true)
           (Demo.ask "  What drives dropout?") Demo.user 0).
  reflexivity.
Defined.

Lemma insight_is_postprocessed_or_fallback_witness :
  result_of (analyze Demo.runtime (Demo.service Demo.healthy true)
               (Demo.ask "  What drives dropout?") Demo.user 0) =
    Ret {| i_question := "  What drives dropout?";
           i_summary := "Dropout is concentrated in two regions.";
           i_confidence := high;
           i_reasoning := Some "Based on the status distribution.";
           dataPoints := {| membersAnalyzed := 3; locationsAnalyzed := 2 |};
           generatedAt := "2025-01-01T00:00:4Z";
           provider := "gemini" |} /\
  ((exists redacted llmResult post result w2 w3 w4 w5,
       llm_analyze Demo.healthy (Some "What drives dropout?") redacted None w2
         = (Ret llmResult, w3) /\
       postProcess Demo.guard llmResult "test-auditor-1" w4 = (Ret post, w5) /\
       response post = Some result /\
       "Dropout is concentrated in two regions." = summary result /\
       high = confidence result /\
       Some "Based on the status distribution." = reasoning result) \/
   (exists e w2 fallback w3,
       handleError Demo.guard e "test-auditor-1" w2 = (fallback, w3) /\
       "Dropout is concentrated in two regions." = summary fallback /\
       high = confidence fallback /\
       Some "Based on the status distribution." = reasoning fallback /\
       {| membersAnalyzed := 3; locationsAnalyzed := 2 |}
         = {| membersAnalyzed := 0; locationsAnalyzed := 0 |})).
Proof.
  split; [reflexivity |].
  apply (insight_is_postprocessed_or_fallback Demo.runtime
           (Demo.service Demo.healthy true)
           (Demo.ask "  What drives dropout?") Demo.user 0 _ eq_refl).
Defined.

Lemma validity_flag_is_only_counted_witness :
  fst (analyze Demo.runtime
         (with_postProcess (Demo.service Demo.healthy true)
            (fun r _ w => (Ret {| valid := true; response := Some r |}, w)))
         (Demo.ask "  What drives dropout?") Demo.user 0) =
  fst (analyze Demo.runtime
         (with_postProcess (Demo.service Demo.healthy true)
            (fun r _ w => (Ret {| valid := false; response := Some r |}, w)))
         (Demo.ask "  What drives dropout?") Demo.user 0).
Proof.
  apply (validity_flag_is_only_counted Demo.runtime (Demo.service Demo.healthy true)
           (fun r _ w => (Ret {| valid := true; response := Some r |}, w))
           (fun r _ w => (Ret {| valid := false; response := Some r |}, w))
           (Demo.ask "  What drives dropout?") Demo.user 0).
  intros r u w0. do 3 eexists. repeat split.
Defined.

Lemma grounding_exception_discards_answer_witness :
  result_of (analyze Demo.runtime
               (with_grounding (Demo.service Demo.healthy true)
                  {| check := fun _ _ w =>
                       (Threw (PlainError "grounding unavailable"), w) |})
               (Demo.ask "  What drives dropout?") Demo.user 0) =
    Ret {| i_question := "  What drives dropout?";
           i_summary := "Unable to complete the analysis.";
           i_confidence := low;
           i_reasoning := None;
           dataPoints := {| membersAnalyzed := 0; locationsAnalyzed := 0 |};
           generatedAt := "2025-01-01T00:00:4Z";
           provider := "gemini" |}.
Proof.
  apply (grounding_exception_discards_answer Demo.runtime
           (with_grounding (Demo.service Demo.healthy true)
              {| check := fun _ _ w =>
                   (Threw (PlainError "grounding unavailable"), w) |})
           (Demo.ask "  What drives dropout?") Demo.user 0 1 2 3 4 4
           Demo.accepted Demo.members Demo.locations Demo.context Demo.redacted
           Demo.answer (PlainError "grounding unavailable"));
    reflexivity.
Defined.

Lemma missing_response_counts_success_and_error_witness :
  In (EvAnalysisCounter "gemini" "success")
     (events_of (analyze Demo.runtime
                   (with_postProcess (Demo.service Demo.healthy true)
                      (fun _ _ w => (Ret {| valid := false; response := None |}, w)))
                   (Demo.ask "  What drives dropout?") Demo.user 0)) /\
  In (EvAnalysisCounter "gemini" "error")
     (events_of (analyze Demo.runtime
                   (with_postProcess (Demo.service Demo.healthy true)
                      (fun _ _ w => (Ret {| valid := false; response := None |}, w)))
                   (Demo.ask "  What drives dropout?") Demo.user 0)).
Proof.
  apply (missing_response_counts_success_and_error Demo.runtime
           (with_postProcess (Demo.service Demo.healthy true)
              (fun _ _ w => (Ret {| valid := false; response := None |}, w)))
           (Demo.ask "  What drives dropout?") Demo.user 0 1 2 3 4 4 4
           Demo.accepted Demo.members Demo.locations Demo.context Demo.redacted
           Demo.answer
           {| grounded := true; score := (9 # 10)%Q; reason := None |}
           {| valid := false; response := None |});
    reflexivity.
Defined.

(** ** The calls the provider receives *)

Lemma buildContext_spied_fun {W Rec : Type} (rt : Runtime W Rec) :
  buildContext (spied_runtime rt) = buildContext rt.
Proof.
  reflexivity.
Qed.

Ltac expose_spied :=
  repeat (progress unfold spied, spy, beside, spied_runtime);
  cbn [spied spy beside spied_runtime search membershipSearch locationsSearch
       redactionService guardrails grounding llmProvider llm_analyze check
       preProcess postProcess handleError toISOString_now members_first getName
       negb fst snd app filter map call_event call_question call_context].

(** The [try] block under watch: the run is the same, and the journal
    grows by the one call made once the context has been redacted, or not
    at all. *)
Lemma spied_analyze_try {W Rec : Type} (rt : Runtime W Rec) (this : AgentService W Rec)
  (request : AnalyzeRequest) (user : AuthenticatedUser) (name : string)
  (sanitized : option string) (w w' : W) (l : list LlmCall)
  (o : outcome Insight) (ev : list Event) :
  analyze_try rt this request user name sanitized w = (o, w', ev) ->
  exists calls,
    analyze_try (spied_runtime rt) (spied this) request user name sanitized (w, l)
      = (o, (w', (l ++ calls)%list), ev) /\
    llm_calls ev = map call_event calls /\
    (calls = [] \/
     exists members locations w1 w2 context redacted,
       search (membershipSearch this) (mkSearchQuery (num_or (limit request) 100)) user w
         = (Ret members, w1) /\
       search (locationsSearch this) (mkSearchQuery (num_or (limit request) 50)) user w1
         = (Ret locations, w2) /\
       buildContext rt members locations request = Ret context /\
       redact (redactionService this) context = Ret redacted /\
       calls = [mkLlmCall sanitized redacted None]).
Proof.
  unfold analyze_try, bind, promise_all2, eval, call, call_total, emit, ret, throw,
    llm_calls.
  rewrite buildContext_spied_fun.
  expose_spied.
  destruct (search (membershipSearch this) _ user w) as [om w1] eqn:Hm.
  expose_spied.
  destruct (search (locationsSearch this) _ user w1) as [ol w2] eqn:Hl.
  expose_spied.
  destruct om as [members|em], ol as [locations|el]; expose_spied;
    try (intros H; injection H as <- <- <-; exists []; rewrite app_nil_r;
         (split; [reflexivity | split; [reflexivity | left; reflexivity]])).
  destruct (buildContext rt members locations request) as [context|eb] eqn:Hb;
    expose_spied;
    try (intros H; injection H as <- <- <-; exists []; rewrite app_nil_r;
         (split; [reflexivity | split; [reflexivity | left; reflexivity]])).
  destruct (redact (redactionService this) context) as [redacted|er] eqn:Hr;
    expose_spied;
    try (intros H; injection H as <- <- <-; exists []; rewrite app_nil_r;
         (split; [reflexivity | split; [reflexivity | left; reflexivity]])).
  destruct (llm_analyze (llmProvider this) sanitized redacted None w2)
    as [[llmResult|e] w3]; expose_spied;
    [| intros H; injection H as <- <- <-;
       exists [mkLlmCall sanitized redacted None];
       (split; [reflexivity | split; [reflexivity | right]]);
       exists members, locations, w1, w2, context, redacted;
       repeat split; assumption].
  destruct (check (grounding this) redacted (summary llmResult) w3)
    as [[g|e] w4]; expose_spied;
    [| intros H; injection H as <- <- <-;
       exists [mkLlmCall sanitized redacted None];
       (split; [reflexivity | split; [reflexivity | right]]);
       exists members, locations, w1, w2, context, redacted;
       repeat split; assumption].
  destruct (grounded g); expose_spied;
    (destruct (postProcess (guardrails this) llmResult (userId user) w4)
       as [[post|e] w5]; expose_spied;
     [ destruct (valid post), (response post); expose_spied |];
     intros H; injection H as <- <- <-;
     exists [mkLlmCall sanitized redacted None];
     (split; [reflexivity | split; [reflexivity | right]]);
     exists members, locations, w1, w2, context, redacted;
     repeat split; assumption).
Qed.

(** A whole run under watch: nothing changes but the journal, which
    grows by the calls the provider received; the events [analyze] records
    for the provider are those calls. *)
Lemma spied_analyze {W Rec : Type} (rt : Runtime W Rec) (this : AgentService W Rec)
  (request : AnalyzeRequest) (user : AuthenticatedUser) (w w' : W) (l : list LlmCall)
  (o : outcome Insight) (ev : list Event) :
  analyze rt this request user w = (o, w', ev) ->
  exists calls,
    analyze (spied_runtime rt) (spied this) request user (w, l)
      = (o, (w', (l ++ calls)%list), ev) /\
    llm_calls ev = map call_event calls /\
    (calls = [] \/
     (allowed (fst (preProcess (guardrails this) (question request) (userId user) w))
        = true /\
      exists members locations w1 w2 context redacted,
        search (membershipSearch this) (mkSearchQuery (num_or (limit request) 100)) user
          (snd (preProcess (guardrails this) (question request) (userId user) w))
          = (Ret members, w1) /\
        search (locationsSearch this) (mkSearchQuery (num_or (limit request) 50)) user w1
          = (Ret locations, w2) /\
        buildContext rt members locations request = Ret context /\
        redact (redactionService this) context = Ret redacted /\
        calls =
          [mkLlmCall
             (sanitizedQuestion
                (fst (preProcess (guardrails this) (question request) (userId user) w)))
             redacted None])).
Proof.
  unfold analyze, bind, emit, call_total, throw.
  change (preProcess (guardrails (spied this)) (question request) (userId user) (w, l))
    with (beside (preProcess (guardrails this) (question request) (userId user)) (w, l)).
  change (getName (llmProvider (spied this))) with (getName (llmProvider this)).
  unfold beside. cbn [fst snd].
  destruct (preProcess (guardrails this) (question request) (userId user) w)
    as [pre w0] eqn:Hpre.
  cbn [fst snd].
  destruct (allowed pre) eqn:Hal; cbn [negb].
  - unfold try_catch_finally, emit.
    destruct (analyze_try rt this request user (getName (llmProvider this))
                (sanitizedQuestion pre) w0) as [[o1 w1] t1] eqn:Htry.
    destruct (spied_analyze_try rt this request user (getName (llmProvider this))
                (sanitizedQuestion pre) w0 w1 l o1 t1 Htry)
      as (calls & Hspied & Hcalls & Hshape).
    rewrite Hspied.
    assert (Hshape' :
              calls = [] \/
              (true = true /\
               exists members locations w1 w2 context redacted,
                 search (membershipSearch this)
                   (mkSearchQuery (num_or (limit request) 100)) user w0
                   = (Ret members, w1) /\
                 search (locationsSearch this)
                   (mkSearchQuery (num_or (limit request) 50)) user w1
                   = (Ret locations, w2) /\
                 buildContext rt members locations request = Ret context /\
                 redact (redactionService this) context = Ret redacted /\
                 calls = [mkLlmCall (sanitizedQuestion pre) redacted None])).
    { destruct Hshape as [H | H]; [left; exact H | right; split; [reflexivity | exact H]]. }
    destruct o1 as [i | e].
    + intros H. injection H as <- <- <-. exists calls.
      split; [reflexivity |]. split; [| exact Hshape'].
      unfold llm_calls in *. cbn [filter app]. rewrite !filter_app. cbn [filter].
      rewrite app_nil_r. exact Hcalls.
    + unfold analyze_catch, bind, emit, call_total, ret.
      change (handleError (guardrails (spied this)) e (userId user)
                (w1, (l ++ calls)%list))
        with (beside (handleError (guardrails this) e (userId user))
                (w1, (l ++ calls)%list)).
      unfold beside. cbn [fst snd].
      destruct (handleError (guardrails this) e (userId user) w1) as [fallback w2].
      cbn [spied_runtime toISOString_now fst snd].
      intros H. injection H as <- <- <-. exists calls.
      split; [reflexivity |]. split; [| exact Hshape'].
      unfold llm_calls in *. cbn [filter app]. rewrite !filter_app. cbn [filter].
      rewrite app_nil_r. exact Hcalls.
  - intros H. injection H as <- <- <-. exists [].
    rewrite (app_nil_r l).
    split; [reflexivity |]. split; [reflexivity | left; reflexivity].
Qed.

Lemma llm_calls_In (ev : list Event) (q : option string) (c : string) :
  In (EvLlmAnalyze q c) ev -> In (EvLlmAnalyze q c) (llm_calls ev).
Proof.
  intros Hin. unfold llm_calls. apply filter_In. split; [exact Hin | reflexivity].
Qed.

(** C1: the model provider's analyze is applied only if the result of
    preProcess has allowed = true.  The provider keeps a journal of the
    calls it receives: a run that adds to the journal has allowed = true,
    and when preProcess returns allowed = false the journal is left as it
    was and the run records no invocation. *)
Theorem provider_called_only_if_allowed {W Rec : Type} (rt : Runtime W Rec)
  (this : AgentService W Rec) (request : AnalyzeRequest) (user : AuthenticatedUser)
  (w : W) (l : list LlmCall) :
  (journal (analyze (spied_runtime rt) (spied this) request user (w, l)) <> l ->
   allowed (fst (preProcess (guardrails this) (question request) (userId user) w))
     = true) /\
  (allowed (fst (preProcess (guardrails this) (question request) (userId user) w))
     = false ->
   journal (analyze (spied_runtime rt) (spied this) request user (w, l)) = l /\
   forall q c, ~ In (EvLlmAnalyze q c) (events_of (analyze rt this request user w))).
Proof.
  destruct (analyze rt this request user w) as [[o w'] ev] eqn:Hrun.
  destruct (spied_analyze rt this request user w w' l o ev Hrun)
    as (calls & Hspied & Hev & Hshape).
  rewrite Hspied. unfold journal, events_of. cbn [fst snd].
  split.
  - intros Hgrew. destruct Hshape as [-> | [Hal _]]; [| exact Hal].
    rewrite app_nil_r in Hgrew. contradiction.
  - intros Hno. destruct Hshape as [-> | [Hal _]]; [| congruence].
    split; [apply app_nil_r |].
    intros q c Hin. apply llm_calls_In in Hin. rewrite Hev in Hin. exact Hin.
Qed.

(** C9: for an allowed request the Insight returned carries the raw
    question of the request, on the successful path and on the error path,
    while every call the model provider receives in the run has the
    sanitized question of preProcess as its question; the two can differ,
    as they do in the sample deployment for a question with leading
    spaces. *)
Theorem raw_question_returned_sanitized_sent :
  (forall (W Rec : Type) (rt : Runtime W Rec) (this : AgentService W Rec)
          (request : AnalyzeRequest) (user : AuthenticatedUser) (w w1 : W)
          (pre : PreProcessResult) (l : list LlmCall),
      preProcess (guardrails this) (question request) (userId user) w = (pre, w1) ->
      allowed pre = true ->
      (exists i, result_of (analyze rt this request user w) = Ret i /\
                 i_question i = question request) /\
      (forall c,
          In c (journal (analyze (spied_runtime rt) (spied this) request user (w, l))) ->
          In c l \/ call_question c = sanitizedQuestion pre)) /\
  (exists i q c,
      result_of (analyze (spied_runtime Demo.runtime)
                   (spied (Demo.service Demo.healthy true))
                   (Demo.ask "  What drives dropout?") Demo.user (0, [])) = Ret i /\
      In c (journal (analyze (spied_runtime Demo.runtime)
                       (spied (Demo.service Demo.healthy true))
                       (Demo.ask "  What drives dropout?") Demo.user (0, []))) /\
      call_question c = Some q /\
      i_question i <> q).
Proof.
  split.
  - intros W Rec rt this request user w w1 pre l Hpre Hal. split.
    + unfold result_of.
      rewrite (analyze_allowed_result rt this request user w w1 pre Hpre Hal).
      destruct (fst (analyze_try rt this request user _ _ w1)) as [[i|e] w2] eqn:Htry.
      * exists i. split; [reflexivity |].
        apply (analyze_try_ret_inv rt this request user _ _ w1 w2 i Htry).
      * rewrite analyze_catch_returns. simpl. eexists. split; reflexivity.
    + intros c.
      destruct (analyze rt this request user w) as [[o w'] ev] eqn:Hrun.
      destruct (spied_analyze rt this request user w w' l o ev Hrun)
        as (calls & Hspied & _ & Hshape).
      rewrite Hspied. unfold journal. cbn [fst snd]. rewrite in_app_iff.
      intros [Hin | Hin]; [left; exact Hin | right].
      destruct Hshape as [-> | [_ Hone]]; [destruct Hin |].
      destruct Hone as (members & locations & v1 & v2 & context & redacted & _ & _ & _ & _
                        & ->).
      rewrite Hpre in Hin. destruct Hin as [<- | []]. reflexivity.
  - eexists. exists "What drives dropout?". eexists.
    split; [reflexivity |]. split; [vm_compute; left; reflexivity |].
    split; [reflexivity | vm_compute; discriminate].
Qed.

(** C10: every call the model provider receives from analyze has as its
    context the redaction of the context built from the two search results
    and the request, and no system prompt; the unredacted context is never
    what the provider is given. *)
Theorem provider_context_is_redacted {W Rec : Type} (rt : Runtime W Rec)
  (this : AgentService W Rec) (request : AnalyzeRequest) (user : AuthenticatedUser)
  (w : W) (l : list LlmCall) (c : LlmCall) :
  In c (journal (analyze (spied_runtime rt) (spied this) request user (w, l))) ->
  In c l \/
  exists members locations w1 w2 w3 context,
    w1 = snd (preProcess (guardrails this) (question request) (userId user) w) /\
    search (membershipSearch this) (mkSearchQuery (num_or (limit request) 100)) user w1
      = (Ret members, w2) /\
    search (locationsSearch this) (mkSearchQuery (num_or (limit request) 50)) user w2
      = (Ret locations, w3) /\
    buildContext rt members locations request = Ret context /\
    redact (redactionService this) context = Ret (call_context c) /\
    call_systemPrompt c = None.
Proof.
  destruct (analyze rt this request user w) as [[o w'] ev] eqn:Hrun.
  destruct (spied_analyze rt this request user w w' l o ev Hrun)
    as (calls & Hspied & _ & Hshape).
  rewrite Hspied. unfold journal. cbn [fst snd]. rewrite in_app_iff.
  intros [Hin | Hin]; [left; exact Hin | right].
  destruct Hshape as [-> | [_ Hone]]; [destruct Hin |].
  destruct Hone as (members & locations & v1 & v2 & context & redacted
                    & Hm & Hl & Hb & Hr & ->).
  destruct Hin as [<- | []].
  exists members, locations,
    (snd (preProcess (guardrails this) (question request) (userId user) w)),
    v1, v2, context.
  cbn [call_context call_systemPrompt].
  repeat split; assumption.
Qed.

(** X10: one call of analyze applies the model provider at most once,
    whatever the collaborators do: the provider's journal grows by at most
    one call, there is no retry; the invocations analyze records are
    exactly the calls the provider received, and watching the provider
    changes nothing else of the run. *)
Theorem provider_called_at_most_once {W Rec : Type} (rt : Runtime W Rec)
  (this : AgentService W Rec) (request : AnalyzeRequest) (user : AuthenticatedUser)
  (w : W) (l : list LlmCall) :
  exists calls,
    journal (analyze (spied_runtime rt) (spied this) request user (w, l))
      = (l ++ calls)%list /\
    length calls <= 1 /\
    llm_calls (events_of (analyze rt this request user w)) = map call_event calls /\
    result_of (analyze (spied_runtime rt) (spied this) request user (w, l))
      = result_of (analyze rt this request user w) /\
    events_of (analyze (spied_runtime rt) (spied this) request user (w, l))
      = events_of (analyze rt this request user w) /\
    fst (snd (fst (analyze (spied_runtime rt) (spied this) request user (w, l))))
      = snd (fst (analyze rt this request user w)).
Proof.
  destruct (analyze rt this request user w) as [[o w'] ev] eqn:Hrun.
  destruct (spied_analyze rt this request user w w' l o ev Hrun)
    as (calls & Hspied & Hev & Hshape).
  exists calls. rewrite Hspied. unfold journal, result_of, events_of. cbn [fst snd].
  repeat split; try assumption.
  destruct Hshape as [-> | [_ Hone]]; [simpl; lia |].
  destruct Hone as (members & locations & v1 & v2 & context & redacted & _ & _ & _ & _
                    & ->).
  simpl. lia.
Qed.

Lemma provider_called_only_if_allowed_witness :
  allowed (fst (preProcess Demo.guard " Hi" "test-auditor-1" 0)) = false /\
  journal (analyze (spied_runtime Demo.runtime) (spied (Demo.service Demo.healthy true))
             (Demo.ask " Hi") Demo.user (0, [])) = [] /\
  forall q c,
    ~ In (EvLlmAnalyze q c)
         (events_of (analyze Demo.runtime (Demo.service Demo.healthy true)
                       (Demo.ask " Hi") Demo.user 0)).
Proof.
  split; [reflexivity |].
  apply (proj2 (provider_called_only_if_allowed Demo.runtime
                  (Demo.service Demo.healthy true) (Demo.ask " Hi") Demo.user 0 [])).
  reflexivity.
Defined.

Lemma raw_question_returned_sanitized_sent_witness :
  preProcess Demo.guard "  What drives dropout?" "test-auditor-1" 0 = (Demo.accepted, 1) /\
  allowed Demo.accepted = true /\
  (exists i,
      result_of (analyze Demo.runtime (Demo.service Demo.failing false)
                   (Demo.ask "  What drives dropout?") Demo.user 0) = Ret i /\
      i_question i = "  What drives dropout?") /\
  (forall c,
      In c (journal (analyze (spied_runtime Demo.runtime)
                       (spied (Demo.service Demo.failing false))
                       (Demo.ask "  What drives dropout?") Demo.user (0, []))) ->
      In c [] \/ call_question c = Some "What drives dropout?").
Proof.
  split; [reflexivity |]. split; [reflexivity |].
  apply (proj1 raw_question_returned_sanitized_sent nat Demo.Rec Demo.runtime
           (Demo.service Demo.failing false)
           (Demo.ask "  What drives dropout?") Demo.user 0 1 Demo.accepted []
           eq_refl eq_refl).
Defined.

Lemma provider_context_is_redacted_witness :
  In (mkLlmCall (Some "What drives dropout?") Demo.redacted None)
     (journal (analyze (spied_runtime Demo.runtime)
                 (spied (Demo.service Demo.healthy true))
                 (Demo.ask "  What drives dropout?") Demo.user (0, []))) /\
  (In (mkLlmCall (Some "What drives dropout?") Demo.redacted None) [] \/
   exists members locations w1 w2 w3 context,
     w1 = snd (preProcess Demo.guard "  What drives dropout?" "test-auditor-1" 0) /\
     search (membershipSearch (Demo.service Demo.healthy true))
       (mkSearchQuery 100) Demo.user w1 = (Ret members, w2) /\
     search (locationsSearch (Demo.service Demo.healthy true))
       (mkSearchQuery 50) Demo.user w2 = (Ret locations, w3) /\
     buildContext Demo.runtime members locations (Demo.ask "  What drives dropout?")
       = Ret context /\
     redact (redactionService (Demo.service Demo.healthy true)) context
       = Ret Demo.redacted /\
     (None : option string) = None).
Proof.
  assert (H : In (mkLlmCall (Some "What drives dropout?") Demo.redacted None)
                (journal (analyze (spied_runtime Demo.runtime)
                            (spied (Demo.service Demo.healthy true))
                            (Demo.ask "  What drives dropout?") Demo.user (0, [])))).
  { vm_compute. left. reflexivity. }
  split; [exact H |].
  apply (provider_context_is_redacted Demo.runtime (Demo.service Demo.healthy true)
           (Demo.ask "  What drives dropout?") Demo.user 0 [] _ H).
Defined.

End AgentFacts.

Module BreakerFacts.

Import Breaker.
Local Open Scope Z_scope.

(** ** Properties of the provider *)

Lemma getState_open {W} (this : CircuitBreakerProvider W) :
  getState this = "open" <-> state (breaker this) = OPEN.
Proof.
  unfold getState, halfOpen, opened.
  destruct (state (breaker this)); split; intros H; try reflexivity; discriminate.
Qed.

(** C8: the defaults are timeout 30000, errorThresholdPercentage 50,
    resetTimeout 30000 and volumeThreshold 3; for every options record given
    to the constructor (or none), each of the four settings of the breaker is
    the value of the field when options has it and the default otherwise;
    the factory of agent.module.ts sets timeout and resetTimeout and leaves
    the other two to their defaults. *)
Theorem options_override_defaults {W} (p : LLMProvider W)
  (opts : option CircuitBreakerOptions) :
  let merged := options (breaker (fst (new_CircuitBreakerProvider p opts))) in
  (opt_timeout defaults = number 30000 /\
   opt_errorThresholdPercentage defaults = number 50 /\
   opt_resetTimeout defaults = number 30000 /\
   opt_volumeThreshold defaults = number 3) /\
  (opt_timeout merged =
     match opts with
     | Some {| timeout := Some v |} => v
     | _ => number 30000
     end /\
   opt_errorThresholdPercentage merged =
     match opts with
     | Some {| errorThresholdPercentage := Some v |} => v
     | _ => number 50
     end /\
   opt_resetTimeout merged =
     match opts with
     | Some {| resetTimeout := Some v |} => v
     | _ => number 30000
     end /\
   opt_volumeThreshold merged =
     match opts with
     | Some {| volumeThreshold := Some v |} => v
     | _ => number 3
     end) /\
  (forall t r : option Z,
     options (breaker (fst (new_CircuitBreakerProvider p (Some (factory_options t r)))))
     = {| opt_timeout := number (num_or t 30000);
          opt_errorThresholdPercentage := number 50;
          opt_resetTimeout := number (num_or r 30000);
          opt_volumeThreshold := number 3 |}).
Proof.
  simpl. split; [repeat split |]. split; [| reflexivity].
  destruct opts as [[[t|] [e|] [r|] [v|]]|]; simpl; repeat split.
Qed.

(** C2: when the circuit breaker is open, analyze does not invoke the
    wrapped provider and returns the fixed fallback result, an
    LLMAnalysisResult whose summary contains "temporarily unavailable",
    whose confidence is low and whose reasoning contains "Circuit breaker";
    the breaker stays as it is. *)
Theorem open_circuit_returns_fallback {W} (this : CircuitBreakerProvider W)
  (args : Args) (w : W) :
  getState this = "open" ->
  exists events,
    analyze this args w = (Ret fallback_result, this, w, events) /\
    (forall a, ~ In (EvProviderAnalyze a) events) /\
    includes (summary fallback_result) "temporarily unavailable" = true /\
    confidence fallback_result = low /\
    (exists text, reasoning fallback_result = Some text /\
                  includes text "Circuit breaker" = true).
Proof.
  intros Hopen. apply getState_open in Hopen.
  exists (fallback_events (providerName this)).
  split.
  - unfold analyze, fire. rewrite Hopen. simpl.
    destruct this as [p b n]. reflexivity.
  - split.
    + intros a Hin. simpl in Hin. intuition discriminate.
    + split; [vm_compute; reflexivity |]. split; [reflexivity |].
      eexists. split; [reflexivity | vm_compute; reflexivity].
Qed.

(** The scenario of section 8 of the specification on the sample provider:
    three failures open the circuit, the next call gets the fallback and
    does not reach the provider, the circuit is half-open once the reset
    time has passed, and the trial call, which succeeds, closes it. *)
Lemma failing_provider_scenario :
  getState Sample.fresh = "closed" /\
  getState (fst (fst (run Sample.fresh [Call Sample.args; Call Sample.args] 0%nat)))
    = "closed" /\
  getState Sample.tripped = "open" /\
  analyze Sample.tripped Sample.args 3%nat =
    (Ret fallback_result, Sample.tripped, 3%nat, fallback_events "mock-provider") /\
  getState (fst (fst (step Sample.tripped (Elapse 29999) 3%nat))) = "open" /\
  getState Sample.probing = "half-open" /\
  fst (fst (fst (analyze Sample.probing Sample.args 3%nat))) = Ret Sample.successResponse /\
  getState (snd (fst (fst (analyze Sample.probing Sample.args 3%nat)))) = "closed".
Proof.
  repeat split.
Qed.

Lemma open_circuit_returns_fallback_witness :
  getState Sample.tripped = "open" /\
  exists events,
    analyze Sample.tripped Sample.args 3%nat
      = (Ret fallback_result, Sample.tripped, 3%nat, events) /\
    (forall a, ~ In (EvProviderAnalyze a) events).
Proof.
  split; [reflexivity |].
  destruct (open_circuit_returns_fallback Sample.tripped Sample.args 3%nat eq_refl)
    as (events & Hrun & Hnone & _).
  exists events. split; assumption.
Defined.

(** ** The constructor and the factory *)

(** X16: the timeout and resetTimeout the constructor logs are those the
    breaker is given, except for an option that is present with the value
    undefined: the log then shows the default, 30000, while the breaker is
    given undefined. *)
Theorem logged_settings_match_unless_undefined {W} (p : LLMProvider W)
  (opts : option CircuitBreakerOptions) :
  exists t r,
    snd (new_CircuitBreakerProvider p opts) =
      [EvCircuitState (getName p) 0; EvLoggerInit (getName p) t r] /\
    (t = opt_timeout (options (breaker (fst (new_CircuitBreakerProvider p opts)))) <->
     ~ (exists o, opts = Some o /\ timeout o = Some undefined)) /\
    (r = opt_resetTimeout (options (breaker (fst (new_CircuitBreakerProvider p opts)))) <->
     ~ (exists o, opts = Some o /\ resetTimeout o = Some undefined)) /\
    (forall o, opts = Some o -> timeout o = Some undefined ->
               t = number 30000 /\
               opt_timeout (options (breaker (fst (new_CircuitBreakerProvider p opts))))
                 = undefined) /\
    (forall o, opts = Some o -> resetTimeout o = Some undefined ->
               r = number 30000 /\
               opt_resetTimeout (options (breaker (fst (new_CircuitBreakerProvider p opts))))
                 = undefined).
Proof.
  do 2 eexists. split; [reflexivity |].
  destruct opts as [[t e r v] |]; simpl.
  - repeat split.
    + intros Heq (o & Ho & Hu). injection Ho as <-. simpl in Hu. subst t.
      simpl in Heq. discriminate.
    + intros Hno. destruct t as [[| z] |]; simpl; try reflexivity.
      exfalso. apply Hno. eexists. split; reflexivity.
    + intros Heq (o & Ho & Hu). injection Ho as <-. simpl in Hu. subst r.
      simpl in Heq. discriminate.
    + intros Hno. destruct r as [[| z] |]; simpl; try reflexivity.
      exfalso. apply Hno. eexists. split; reflexivity.
    + injection H as <-. simpl in H0. subst t. reflexivity.
    + injection H as <-. simpl in H0. subst t. reflexivity.
    + injection H as <-. simpl in H0. subst r. reflexivity.
    + injection H as <-. simpl in H0. subst r. reflexivity.
  - repeat split; try discriminate.
    + intros _ (o & Ho & _). discriminate.
    + intros _ (o & Ho & _). discriminate.
Qed.

(** X17: the factory wraps the Bedrock provider only when LLM_PROVIDER is
    exactly 'bedrock'; when it is unset, empty, spelled otherwise or names
    anything else, the Gemini provider is wrapped; the wrapper takes the
    name of the provider it wraps. *)
Theorem factory_selects_provider {W} (LLM_PROVIDER : option string)
  (t r : option Z) (gemini bedrock : LLMProvider W) :
  (LLM_PROVIDER = Some "bedrock" ->
   provider (fst (useFactory LLM_PROVIDER t r gemini bedrock)) = bedrock /\
   providerName (fst (useFactory LLM_PROVIDER t r gemini bedrock)) = getName bedrock) /\
  (LLM_PROVIDER <> Some "bedrock" ->
   provider (fst (useFactory LLM_PROVIDER t r gemini bedrock)) = gemini /\
   providerName (fst (useFactory LLM_PROVIDER t r gemini bedrock)) = getName gemini).
Proof.
  unfold useFactory, new_CircuitBreakerProvider, str_or. split.
  - intros ->. simpl. split; reflexivity.
  - intros Hne. destruct LLM_PROVIDER as [name |]; simpl; [| split; reflexivity].
    destruct (String.eqb_spec name "") as [-> | Hnonempty]; simpl;
      [split; reflexivity |].
    destruct (String.eqb_spec name "bedrock") as [-> | Hother]; simpl;
      [congruence | split; reflexivity].
Qed.

Lemma logged_settings_match_unless_undefined_witness :
  exists t r,
    snd (new_CircuitBreakerProvider Sample.mock
           (Some {| timeout := Some undefined; errorThresholdPercentage := None;
                    resetTimeout := Some (number 200); volumeThreshold := None |}))
      = [EvCircuitState "mock-provider" 0; EvLoggerInit "mock-provider" t r] /\
    t = number 30000 /\
    opt_timeout
      (options (breaker (fst (new_CircuitBreakerProvider Sample.mock
         (Some {| timeout := Some undefined; errorThresholdPercentage := None;
                  resetTimeout := Some (number 200); volumeThreshold := None |})))))
      = undefined.
Proof.
  destruct (logged_settings_match_unless_undefined Sample.mock
              (Some {| timeout := Some undefined; errorThresholdPercentage := None;
                       resetTimeout := Some (number 200); volumeThreshold := None |}))
    as (t & r & Hev & _ & _ & Hu & _).
  exists t, r. split; [exact Hev |].
  apply (Hu _ eq_refl eq_refl).
Defined.

Lemma factory_selects_provider_witness :
  Some "Bedrock" <> Some "bedrock" /\
  provider (fst (useFactory (Some "Bedrock") None None Sample.mock
                   {| getName := "bedrock";
                      provider_analyze := provider_analyze Sample.mock |}))
    = Sample.mock.
Proof.
  assert (H : Some "Bedrock" <> Some "bedrock") by discriminate.
  split; [exact H |].
  apply (proj2 (factory_selects_provider (Some "Bedrock") None None Sample.mock
                  {| getName := "bedrock";
                     provider_analyze := provider_analyze Sample.mock |}) H).
Defined.

End BreakerFacts.
